(** * wasm/patch.py: clearing the floating-point functions of a WAT module

    A shallow embedding of the script [wasm/patch.py] and the properties
    of its line scanner.  The script runs [wasm2wat], reads the text it
    produced line by line, replaces every function in which [f64] or
    [f32] occurs by the line [(func )], writes the result and runs
    [wat2wasm] on it.

    Python strings are sequences of Unicode code points, so a character
    is a code point ([N]) and a string is a list of them.  The depth
    counter is a Python integer, hence [Z].  The loop is a function from
    the module-level variables and a line to the variables after the
    line, or to the exception it raises; the calls that leave the
    interpreter ([subprocess.run], [open], [print]) are the events of a
    trace.

    The file has the embedding first, then the data model of the
    specification and sample modules, then the lemmas on the loop and
    the properties C1 to C10. *)

From Stdlib Require Import Ascii String.
From Stdlib Require Import List ZArith NArith Bool Lia.
Import ListNotations.

Open Scope Z_scope.

(** ** Strings *)

Definition char := N.
Definition text := list char.
Definition line := text.

(** A string literal of the source, as code points. *)
Definition str (s : string) : text :=
  map N_of_ascii (list_ascii_of_string s).

Definition NL : char := 10%N.
Definition LPAREN : char := 40%N.
Definition RPAREN : char := 41%N.

(** [str.isspace] on one character: the code points that [str.strip ()]
    removes when it is called without argument. *)
Definition isspace (c : char) : bool :=
  ((9 <=? c) && (c <=? 13) || (28 <=? c) && (c <=? 32)
   || (c =? 133) || (c =? 160) || (c =? 5760)
   || (8192 <=? c) && (c <=? 8202)
   || (c =? 8232) || (c =? 8233) || (c =? 8239) || (c =? 8287)
   || (c =? 12288))%N.

Fixpoint lstrip (s : text) : text :=
  match s with
  | [] => []
  | c :: s' => if isspace c then lstrip s' else s
  end.

Definition rstrip (s : text) : text := rev (lstrip (rev s)).

(** [s.strip ()] *)
Definition strip (s : text) : text := rstrip (lstrip s).

(** [s.startswith (p)] *)
Fixpoint startswith (p s : text) : bool :=
  match p, s with
  | [], _ => true
  | _ :: _, [] => false
  | a :: p', b :: s' => (a =? b)%N && startswith p' s'
  end.

(** [p in s] on strings: [p] occurs in [s] as a substring. *)
Fixpoint contains (p s : text) : bool :=
  startswith p s ||
  match s with
  | [] => false
  | _ :: s' => contains p s'
  end.

(** ** The scanner (patch.py, lines 15 to 50) *)

Inductive exn :=
| Exception (msg : text)
| AssertionError
| OSError.

(** The module-level variables of the script that the loop updates,
    and what it has printed. *)
Record state := mkState {
  new_lines : list line;
  inside_func : bool;
  func_depth : Z;
  clear_func : bool;
  func_lines : list line;
  func_sig : text;
  stdout : list text
}.

Definition init : state :=
  mkState [] false 0 false [] [] [].

(** The loop either goes on with a state or stops at a [raise]; the
    variables keep the values they had when the exception left the loop. *)
Inductive outcome :=
| Ok (st : state)
| Raise (e : exn) (st : state).

(** ['f64' in line or 'f32' in line] *)
Definition float_marker (l : line) : bool :=
  contains (str "f64") l || contains (str "f32") l.

(** [line.strip ().startswith ("(func")] *)
Definition func_start (l : line) : bool :=
  startswith (str "(func") (strip l).

(** One round of [for c in line] (lines 35 to 38). *)
Definition paren (d : Z) (c : char) : Z :=
  if (c =? LPAREN)%N then d + 1
  else if (c =? RPAREN)%N then d - 1
  else d.

(** The depth after [for c in line], entered with depth [d]. *)
Definition line_depth (d : Z) (l : line) : Z := fold_left paren l d.

(** The line that replaces a cleared function. *)
Definition STUB : line := str "(func )" ++ [NL].

(** [print ("clear func: ", func_sig)]: the arguments separated by a
    space and followed by a line feed. *)
Definition print_clear (sig : text) : text :=
  str "clear func: " ++ str " " ++ sig ++ [NL].

(** Lines 25 to 29: a line that opens a function. *)
Definition enter_func (st : state) (l : line) : state :=
  if func_start l then
    mkState (new_lines st) true (func_depth st) (float_marker l) []
            (strip l) (stdout st)
  else st.

(** Lines 31 to 50. *)
Definition scan_line (st : state) (l : line) : outcome :=
  if inside_func st then
    let clear := clear_func st || float_marker l in
    let lines := func_lines st ++ [l] in
    let depth := line_depth (func_depth st) l in
    if depth <? 0 then
      Raise (Exception (str "func depth < 0"))
            (mkState (new_lines st) true depth clear lines
                     (func_sig st) (stdout st))
    else if depth =? 0 then
      if clear then
        Ok (mkState (new_lines st ++ [STUB]) false depth clear lines
                    (func_sig st) (stdout st ++ [print_clear (func_sig st)]))
      else
        Ok (mkState (new_lines st ++ lines) false depth clear lines
                    (func_sig st) (stdout st))
    else
      Ok (mkState (new_lines st) true depth clear lines
                  (func_sig st) (stdout st))
  else
    Ok (mkState (new_lines st ++ [l]) false (func_depth st) (clear_func st)
                (func_lines st) (func_sig st) (stdout st)).

(** The body of the loop. *)
Definition step (st : state) (l : line) : outcome :=
  scan_line (enter_func st l) l.

(** [for line in fp.readlines (): ...] from a given state. *)
Fixpoint run (st : state) (ls : list line) : outcome :=
  match ls with
  | [] => Ok st
  | l :: ls' =>
      match step st l with
      | Ok st' => run st' ls'
      | Raise e st' => Raise e st'
      end
  end.

(** Lines 15 to 50: the loop from the initial values of the variables. *)
Definition scan (ls : list line) : outcome := run init ls.

(** ** Text files *)

(** [fp.readlines ()] on a file opened in text mode, as a function of the
    decoded text [fp.read ()] would give: the text is cut after each line
    feed, and every line keeps its line feed. *)
Fixpoint readlines (t : text) : list line :=
  match t with
  | [] => []
  | c :: t' =>
      if (c =? NL)%N then [c] :: readlines t'
      else match readlines t' with
           | [] => [[c]]
           | l :: ls => (c :: l) :: ls
           end
  end.

(** [''.join (new_lines)] *)
Definition join (ls : list line) : text := concat ls.

(** Lines 12 to 53 without the file names: from the text of
    [pkg/origin.wat] to the text written to [pkg/patched.wat], or the
    exception that ends the script before anything is written. *)
Definition patch_text (t : text) : text + exn :=
  match scan (readlines t) with
  | Ok st => inl (join (new_lines st))
  | Raise e _ => inr e
  end.

(** ** The script and what it does to its environment *)

(** A script: the calls that reach outside the interpreter, each with the
    rest of the script as a function of what the call returns. *)
Inductive prog (A : Type) : Type :=
| Ret (a : A)
| Throw (e : exn)
| SubprocessRun (argv : list text) (k : Z -> prog A)
| OpenRead (path : text) (k : text -> prog A)
| Print (s : text) (k : prog A)
| OpenWrite (path : text) (data : text) (k : prog A).
Arguments Ret {A} a.
Arguments Throw {A} e.
Arguments SubprocessRun {A} argv k.
Arguments OpenRead {A} path k.
Arguments Print {A} s k.
Arguments OpenWrite {A} path data k.

Fixpoint pbind {A B} (p : prog A) (f : A -> prog B) : prog B :=
  match p with
  | Ret a => f a
  | Throw e => Throw e
  | SubprocessRun argv k => SubprocessRun argv (fun rc => pbind (k rc) f)
  | OpenRead path k => OpenRead path (fun t => pbind (k t) f)
  | Print s k => Print s (pbind k f)
  | OpenWrite path data k => OpenWrite path data (pbind k f)
  end.

Declare Scope prog_scope.
Delimit Scope prog_scope with prog.
Notation "x <- p ;; q" := (pbind p (fun x => q))
  (at level 61, p at next level, right associativity) : prog_scope.
Notation "p ;; q" := (pbind p (fun _ => q))
  (at level 61, right associativity) : prog_scope.

(** [subprocess.run (argv).returncode], for a converter that could be
    started: the call returns and the status is read. *)
Definition subprocess_run (argv : list text) : prog Z :=
  SubprocessRun argv Ret.

(** [assert b] *)
Definition assert (b : bool) : prog unit :=
  if b then Ret tt else Throw AssertionError.

(** [open (path, "r")] followed by [readlines ()]. *)
Definition open_readlines (path : text) : prog (list line) :=
  OpenRead path (fun t => Ret (readlines t)).

(** [with open (path, "w") as fp: fp.write (data)] *)
Definition open_write (path data : text) : prog unit :=
  OpenWrite path data (Ret tt).

Fixpoint print_all (out : list text) : prog unit :=
  match out with
  | [] => Ret tt
  | s :: out' => Print s (print_all out')
  end.

(** The loop inside a script: what it printed goes out, then it hands
    over its variables or its exception. *)
Definition scan_prog (ls : list line) : prog state :=
  match scan ls with
  | Ok st => (print_all (stdout st) ;; Ret st)%prog
  | Raise e st => (print_all (stdout st) ;; Throw e)%prog
  end.

Definition WASM2WAT : text := str "wasm2wat".
Definition WAT2WASM : text := str "wat2wasm".
Definition WASM_PATH : text := str "pkg/zkwasm_prover_bg.wasm".

(** The paths that the script spells out where it uses them. *)
Definition ORIGIN_WAT : text := str "pkg/origin.wat".
Definition PATCHED_WAT : text := str "pkg/patched.wat".
Definition PATCHED_WASM : text := str "pkg/zkwasm_prover_bg_patched.wasm".

(** The command lines of the decoder (line 9) and of the encoder
    (line 55). *)
Definition decoder_argv : list text :=
  [WASM2WAT; WASM_PATH; str "-o"; ORIGIN_WAT].
Definition encoder_argv : list text :=
  [WAT2WASM; PATCHED_WAT; str "-o"; PATCHED_WASM].

(** patch.py, from top to bottom. *)
Definition main : prog unit :=
  (res <- subprocess_run decoder_argv ;;
   assert (res =? 0) ;;
   lines <- open_readlines ORIGIN_WAT ;;
   st <- scan_prog lines ;;
   open_write PATCHED_WAT (join (new_lines st)) ;;
   res <- subprocess_run encoder_argv ;;
   assert (res =? 0))%prog.

(** What a run of the script did, in order, with what came back. *)
Inductive event :=
| EvRun (argv : list text) (returncode : Z)
| EvRead (path : text) (content : option text)
| EvPrint (s : text)
| EvWrite (path : text) (data : text) (done : bool).

Definition trace := list event.

(** The environment: the converters' exit status, the content of a file
    that is opened for reading ([None]: opening or reading it raises;
    the model has the one exception [OSError] for that) and whether a
    file can be written, each as a function of what has happened so
    far.  A converter that cannot be started is not in the model. *)
Record world := mkWorld {
  returncode : trace -> list text -> Z;
  content : trace -> text -> option text;
  writable : trace -> text -> bool
}.

(** Running a script in an environment, after the events [h]: all the
    events, and the value or the exception that ends the script. *)
Fixpoint exec {A} (w : world) (p : prog A) (h : trace) : trace * (A + exn) :=
  match p with
  | Ret a => (h, inl a)
  | Throw e => (h, inr e)
  | SubprocessRun argv k =>
      let rc := returncode w h argv in
      exec w (k rc) (h ++ [EvRun argv rc])
  | OpenRead path k =>
      match content w h path with
      | Some t => exec w (k t) (h ++ [EvRead path (Some t)])
      | None => (h ++ [EvRead path None], inr OSError)
      end
  | Print s k => exec w k (h ++ [EvPrint s])
  | OpenWrite path data k =>
      if writable w h path then exec w k (h ++ [EvWrite path data true])
      else (h ++ [EvWrite path data false], inr OSError)
  end.

(** The event is a run of the command line [argv]. *)
Definition is_run (argv : list text) (e : event) : bool :=
  match e with
  | EvRun a _ =>
      if list_eq_dec (list_eq_dec N.eq_dec) a argv then true else false
  | _ => false
  end.

(** The event is an attempt to write a file. *)
Definition is_write (e : event) : bool :=
  match e with
  | EvWrite _ _ _ => true
  | _ => false
  end.

(** ** The data model of the specification

    The specification describes a textual module as a sequence of
    top-level forms.  These definitions follow its words (sections 3, 4.1
    and 4.2); the theorems below compare them with the loop. *)

Module Spec.

Inductive form :=
| Plain (l : line)
| Func (body_lines : list line).

Definition lines_of (f : form) : list line :=
  match f with
  | Plain l => [l]
  | Func body => body
  end.

(** The module that a sequence of forms stands for. *)
Definition module_lines (fs : list form) : list line :=
  flat_map lines_of fs.

(** The running parenthesis count after each character of a line. *)
Fixpoint depths (d : Z) (l : line) : list Z :=
  match l with
  | [] => []
  | c :: l' => paren d c :: depths (paren d c) l'
  end.

(** Counted from [d] before the first line, the count at the end of a
    line is zero at the last line of [body] and positive at the end of
    every line before it. *)
Fixpoint closes_at_last (d : Z) (body : list line) : bool :=
  match body with
  | [] => false
  | l :: rest =>
      match rest with
      | [] => line_depth d l =? 0
      | _ :: _ => (0 <? line_depth d l) && closes_at_last (line_depth d l) rest
      end
  end.

(** Counted from [d] before the first line, the count is positive at the
    end of every line of [ls]: the function is still open after them. *)
Fixpoint stays_open (d : Z) (ls : list line) : bool :=
  match ls with
  | [] => true
  | l :: rest => (0 <? line_depth d l) && stays_open (line_depth d l) rest
  end.

(** A plain line does not open a function; a function definition opens
    with its first line, has no other line that opens a function, and
    ends at the first line where the count is back to zero. *)
Definition well_formed (f : form) : bool :=
  match f with
  | Plain l => negb (func_start l)
  | Func [] => false
  | Func (l0 :: rest) =>
      func_start l0
      && forallb (fun l => negb (func_start l)) rest
      && closes_at_last 0 (l0 :: rest)
  end.

Definition has_float_reference (body : list line) : bool :=
  existsb float_marker body.

(** The stub rewriter on one form. *)
Definition rewrite_form (f : form) : list line :=
  match f with
  | Plain l => [l]
  | Func body => if has_float_reference body then [STUB] else body
  end.

Definition rewrite (fs : list form) : list line :=
  flat_map rewrite_form fs.

(** No function of the module refers to a floating-point type. *)
Definition clean (fs : list form) : bool :=
  forallb (fun f => match f with
                    | Plain _ => true
                    | Func body => negb (has_float_reference body)
                    end) fs.

End Spec.

(** ** Sample modules *)

(** A line of text with its line feed. *)
Definition ln (s : string) : line := str s ++ [NL].

Module Sample.

(** A function of five lines that takes a double. *)
Definition f_open : line := ln "  (func $f (param f64)".
Definition f_rest : list line :=
  [ln "    local.get 0";
   ln "    (drop";
   ln "      (nop))";
   ln "  )"].
Definition f_float : list line := f_open :: f_rest.

(** The variables after the loop has gone through [f_float] alone. *)
Definition f_done : state :=
  mkState [STUB] false 0 true f_float (str "(func $f (param f64)")
          [print_clear (str "(func $f (param f64)")].

(** A function without floating-point types, with nested expressions. *)
Definition g_open : line := ln "  (func $g (param i32) (result i32)".
Definition g_rest : list line :=
  [ln "    (i32.add (local.get 0) (i32.const 1))";
   ln "  )"].
Definition g_int : list line := g_open :: g_rest.

(** A function on one line. *)
Definition h_one : list line := [ln "  (func $h (param i32))"].

Definition forms : list Spec.form :=
  [Spec.Plain (ln "(module");
   Spec.Plain (ln "  (type (;0;) (func (param i32)))");
   Spec.Func f_float;
   Spec.Func g_int;
   Spec.Func h_one;
   Spec.Plain (ln "  (memory (;0;) 1)");
   Spec.Plain (ln ")")].

Definition clean_forms : list Spec.form :=
  [Spec.Plain (ln "(module");
   Spec.Func g_int;
   Spec.Func h_one;
   Spec.Plain (ln ")")].

(** A function whose second line opens a function again. *)
Definition reopened : list line :=
  [ln "(module";
   ln "  (func $a";
   ln "  (func $b)";
   ln "  )";
   ln ")"].

(** The same with a double in the first function line. *)
Definition reopened_float : list line :=
  [ln "  (func $a (param f64)";
   ln "  (func $b)";
   ln "  )"].

(** The variables after the first line of [reopened_float], and after
    its second line. *)
Definition in_a : state :=
  mkState [] true 1 true [ln "  (func $a (param f64)"]
          (str "(func $a (param f64)") [].
Definition in_b : state :=
  mkState [] true 1 false [ln "  (func $b)"] (str "(func $b)") [].

(** A module whose last function is cut off. *)
Definition truncated : list line :=
  [ln "(module";
   ln "  (func $a (param i32)";
   ln "    nop"].

(** The forms before the cut, and the lines of the function cut off. *)
Definition truncated_forms : list Spec.form := [Spec.Plain (ln "(module")].
Definition truncated_open : line := ln "  (func $a (param i32)".
Definition truncated_rest : list line := [ln "    nop"].

(** A function line whose depth dips below zero and comes back. *)
Definition dipping : line := ln "(func $f) ) (".

(** A function with one closing parenthesis too many on its second
    line: the lines before that line, the line, the lines after it, and
    the variables when the loop reaches the line. *)
Definition negative_pre : list line :=
  [ln "(module"; ln "  (func $f (param i32)"].
Definition negative_line : line := ln "    nop))".
Definition negative_post : list line := [ln ")"].
Definition negative_state : state :=
  mkState [ln "(module"] true 1 false [ln "  (func $f (param i32)"]
          (str "(func $f (param i32)") [].

(** A function whose name happens to contain the marker, and the
    variables after its first line. *)
Definition named_f64 : list line :=
  [ln "  (func $leaf64 (param i32)";
   ln "    nop)"].
Definition named_open : state :=
  mkState [] true 1 true [ln "  (func $leaf64 (param i32)"]
          (str "(func $leaf64 (param i32)") [].

(** An environment in which the decoder succeeds and leaves [f_float]
    and [g_int] in a module, every file can be written, and the encoder
    ends with status 1. *)
Definition encoder_fails : world :=
  mkWorld
    (fun _ argv =>
       if list_eq_dec (list_eq_dec N.eq_dec) argv decoder_argv then 0 else 1)
    (fun _ _ => Some (join (ln "(module" :: f_float ++ g_int ++ [ln ")"])))
    (fun _ _ => true).

(** What the script does in that environment. *)
Definition encoder_fails_trace : trace :=
  [EvRun decoder_argv 0;
   EvRead ORIGIN_WAT
     (Some (join (ln "(module" :: f_float ++ g_int ++ [ln ")"])));
   EvPrint (print_clear (str "(func $f (param f64)"));
   EvWrite PATCHED_WAT (join (ln "(module" :: STUB :: g_int ++ [ln ")"])) true;
   EvRun encoder_argv 1].

(** An environment in which the decoder ends with status 2. *)
Definition decoder_fails : world :=
  mkWorld (fun _ _ => 2) (fun _ _ => None) (fun _ _ => true).

End Sample.

(** ** Further sample modules *)

Module More.

(** The variables when the loop raises on [Sample.negative_line]. *)
Definition negative_raised : state :=
  mkState [ln "(module"] true (-1) false
          [ln "  (func $f (param i32)"; ln "    nop))"]
          (str "(func $f (param i32)") [].

(** A module without function: types, a memory with a double in a
    comment, and a closing parenthesis too many. *)
Definition no_function : list line :=
  [ln "(module";
   ln "  (type (;0;) (func (param f64)))";
   ln "  (memory (;0;) 1) ;; f32";
   ln "))"].

(** A text whose last line has no line feed, after a function with a
    double, and the variables after the loop. *)
Definition unterminated : text :=
  join [ln "(func $f (result f64)"; ln "  f64.const 1)"] ++ str ";; end".
Definition unterminated_done : state :=
  mkState [STUB; str ";; end"] false 0 true
          [ln "(func $f (result f64)"; ln "  f64.const 1)"]
          (str "(func $f (result f64)")
          [print_clear (str "(func $f (result f64)")].

(** A module with a float function and an integer function, whose
    plain lines have no floating-point marker. *)
Definition forms_float_inside : list Spec.form :=
  [Spec.Plain (ln "(module");
   Spec.Plain (ln "  (type (;0;) (func (param i32)))");
   Spec.Func Sample.f_float;
   Spec.Func Sample.g_int;
   Spec.Plain (ln ")")].

(** An environment in which both converters return zero, the decoder
    leaves [Sample.g_int], and every file can be written; and what the
    script does in it. *)
Definition all_succeeds : world :=
  mkWorld (fun _ _ => 0) (fun _ _ => Some (join Sample.g_int))
          (fun _ _ => true).
Definition success_trace : trace :=
  [EvRun decoder_argv 0;
   EvRead ORIGIN_WAT (Some (join Sample.g_int));
   EvWrite PATCHED_WAT (join Sample.g_int) true;
   EvRun encoder_argv 0].

(** A module with balanced parentheses and no floating-point marker in
    which a function is opened again before it has ended, and what the
    loop makes of it. *)
Definition reopened_clean : list line :=
  [ln "(func $a"; ln "(func $b))"; ln "("; ln ")"].
Definition reopened_clean_output : list line :=
  [ln "(func $b))"; ln "("; ln ")"].

End More.

(** The scanner is between two top-level forms. *)
Definition at_top (st : state) : Prop :=
  inside_func st = false /\ func_depth st = 0.

(** The variables when the function being scanned in [st] ends after the
    further lines [ls]. *)
Definition closed (st : state) (ls : list line) : state :=
  let clear := clear_func st || existsb float_marker ls in
  let lines := func_lines st ++ ls in
  mkState (new_lines st ++ (if clear then [STUB] else lines))
          false 0 clear lines (func_sig st)
          (stdout st ++ (if clear then [print_clear (func_sig st)] else [])).

(** The variables when the function being scanned in [st] is still open
    after the further lines [ls]. *)
Definition opened (st : state) (ls : list line) : state :=
  mkState (new_lines st) true (fold_left line_depth ls (func_depth st))
          (clear_func st || existsb float_marker ls) (func_lines st ++ ls)
          (func_sig st) (stdout st).

(** The flag is the disjunction over the buffer, the depth is zero
    exactly between two forms, and the buffer begins with the line that
    opened the function, from which the signature was taken. *)
Definition invariant (st : state) : Prop :=
  clear_func st = existsb float_marker (func_lines st)
  /\ (if inside_func st then 0 < func_depth st else func_depth st = 0)
  /\ match func_lines st with
     | [] => inside_func st = false
     | l0 :: _ => func_start l0 = true /\ func_sig st = strip l0
     end.

(** An event of the script's own work between the two converters: no
    converter is run, and nothing is written but the patched text. *)
Definition between (e : event) : Prop :=
  match e with
  | EvRun _ _ => False
  | EvWrite path _ _ => path = PATCHED_WAT
  | _ => True
  end.

(** ** Further notions for the whole loop *)

(** The number of occurrences of a character in a line. *)
Fixpoint count_char (c : char) (l : line) : Z :=
  match l with
  | [] => 0
  | x :: l' => (if (x =? c)%N then 1 else 0) + count_char c l'
  end.

(** [rewritten input output]: the output is the input, in order, with
    some lines left out and some lines replaced by the stub line; no
    other line is changed and no two lines change places. *)
Inductive rewritten : list line -> list line -> Prop :=
| rewritten_nil : rewritten [] []
| rewritten_keep l i o : rewritten i o -> rewritten (l :: i) (l :: o)
| rewritten_drop l i o : rewritten i o -> rewritten (l :: i) o
| rewritten_stub l i o : rewritten i o -> rewritten (l :: i) (STUB :: o).

(** The lines that the loop has read and holds back: the buffer while
    it is inside a function. *)
Definition pending (st : state) : list line :=
  if inside_func st then func_lines st else [].

(** Two states of the loop that differ by what was put out and printed
    before: [s1] has [out] and [printed] in front.  Between two forms
    the flag, the buffer and the signature are left over from the last
    function and may differ. *)
Definition ahead (out : list line) (printed : list text) (s1 s2 : state)
  : Prop :=
  new_lines s1 = out ++ new_lines s2
  /\ stdout s1 = printed ++ stdout s2
  /\ inside_func s1 = inside_func s2
  /\ func_depth s1 = func_depth s2
  /\ (inside_func s2 = true ->
      clear_func s1 = clear_func s2
      /\ func_lines s1 = func_lines s2
      /\ func_sig s1 = func_sig s2).

(** A line as [readlines] returns it: not empty, without a line feed
    before its last character, and ending with a line feed when
    [must_end] is set. *)
Fixpoint line_ok (must_end : bool) (l : line) : bool :=
  match l with
  | [] => false
  | c :: l' =>
      match l' with
      | [] => (c =? NL)%N || negb must_end
      | _ :: _ => negb (c =? NL)%N && line_ok must_end l'
      end
  end.

(** The lines of a text: each one a line, and each one but the last
    ending with a line feed. *)
Fixpoint proper_lines (ls : list line) : bool :=
  match ls with
  | [] => true
  | l :: rest =>
      line_ok (match rest with [] => false | _ :: _ => true end) l
      && proper_lines rest
  end.

(** A form after the rewrite: a function with a floating-point marker
    has become the function that is the stub line. *)
Definition cleared (f : Spec.form) : Spec.form :=
  match f with
  | Spec.Plain l => Spec.Plain l
  | Spec.Func body =>
      if Spec.has_float_reference body then Spec.Func [STUB]
      else Spec.Func body
  end.

(** What [print] writes for a module: for each function with a
    floating-point marker, in order, its trimmed opening line. *)
Definition diagnostics (fs : list Spec.form) : list text :=
  flat_map (fun f =>
              match f with
              | Spec.Plain _ => []
              | Spec.Func body =>
                  if Spec.has_float_reference body
                  then [print_clear (strip (hd [] body))]
                  else []
              end) fs.

(** The floating-point markers of a module are all inside functions. *)
Definition floats_in_functions (fs : list Spec.form) : bool :=
  forallb (fun f =>
             match f with
             | Spec.Plain l => negb (float_marker l)
             | Spec.Func _ => true
             end) fs.

(** ** The loop, line by line *)

Lemma run_app (a b : list line) : forall st,
  run st (a ++ b) =
  match run st a with
  | Ok st' => run st' b
  | Raise e st' => Raise e st'
  end.
Proof.
  induction a as [|l a IH]; intro st; simpl; [reflexivity|].
  destruct (step st l); [apply IH | reflexivity].
Qed.

Lemma enter_func_twice st l :
  enter_func (enter_func st l) l = enter_func st l.
Proof.
  unfold enter_func. destruct (func_start l); reflexivity.
Qed.

Lemma enter_func_other st l :
  func_start l = false -> enter_func st l = st.
Proof. unfold enter_func. intros ->. reflexivity. Qed.

Lemma enter_func_inside st l :
  inside_func st = true \/ func_start l = true ->
  inside_func (enter_func st l) = true.
Proof.
  intro H. unfold enter_func. destruct (func_start l); [reflexivity|].
  destruct H; [assumption | discriminate].
Qed.

Lemma enter_func_new_lines st l :
  new_lines (enter_func st l) = new_lines st.
Proof. unfold enter_func. destruct (func_start l); reflexivity. Qed.

Lemma enter_func_depth st l :
  func_depth (enter_func st l) = func_depth st.
Proof. unfold enter_func. destruct (func_start l); reflexivity. Qed.

Lemma step_plain st l :
  inside_func st = false -> func_start l = false ->
  step st l =
  Ok (mkState (new_lines st ++ [l]) false (func_depth st) (clear_func st)
              (func_lines st) (func_sig st) (stdout st)).
Proof.
  intros Hin Hl. unfold step. rewrite (enter_func_other _ _ Hl).
  unfold scan_line. rewrite Hin. reflexivity.
Qed.

Lemma step_enter st l : step (enter_func st l) l = step st l.
Proof. unfold step. rewrite enter_func_twice. reflexivity. Qed.

Lemma run_enter st l ls : run (enter_func st l) (l :: ls) = run st (l :: ls).
Proof. simpl. rewrite step_enter. reflexivity. Qed.

(** From inside a function, a run of lines that ends where the depth is
    back to zero leaves the loop between two forms, the function emitted
    as it is or as the stub. *)
Lemma run_inside : forall rest l st,
  inside_func st = true ->
  enter_func st l = st ->
  forallb (fun l => negb (func_start l)) rest = true ->
  Spec.closes_at_last (func_depth st) (l :: rest) = true ->
  run st (l :: rest) = Ok (closed st (l :: rest)).
Proof.
  induction rest as [|l' rest IH]; intros l st Hin Hl Hrest Hcl.
  - simpl in Hcl. apply Z.eqb_eq in Hcl.
    simpl. unfold step, scan_line. rewrite Hl, Hin, Hcl. simpl.
    unfold closed. simpl. rewrite orb_false_r.
    destruct (clear_func st || float_marker l);
      [|rewrite app_nil_r]; reflexivity.
  - change (Spec.closes_at_last (func_depth st) (l :: l' :: rest))
      with ((0 <? line_depth (func_depth st) l)
            && Spec.closes_at_last (line_depth (func_depth st) l) (l' :: rest))
      in Hcl.
    apply andb_prop in Hcl. destruct Hcl as [Hpos Hcl].
    apply Z.ltb_lt in Hpos.
    simpl in Hrest. apply andb_prop in Hrest. destruct Hrest as [Hl' Hrest].
    apply negb_true_iff in Hl'.
    change (run st (l :: l' :: rest))
      with (match step st l with
            | Ok st' => run st' (l' :: rest)
            | Raise e st' => Raise e st'
            end).
    unfold step at 1. unfold scan_line. rewrite Hl, Hin.
    cbv zeta.
    destruct (line_depth (func_depth st) l <? 0) eqn:E1;
      [apply Z.ltb_lt in E1; lia|].
    destruct (line_depth (func_depth st) l =? 0) eqn:E2;
      [apply Z.eqb_eq in E2; lia|].
    rewrite IH; simpl; try assumption; try reflexivity.
    + unfold closed. simpl.
      rewrite <- !orb_assoc, <- !app_assoc. reflexivity.
    + apply enter_func_other. assumption.
Qed.

(** A function definition met at any point of the loop: its first line
    opens a function, no further line does, and the depth, which goes on
    from its value before the first line, is back to zero at the end of
    the last line and positive at the end of the lines before. *)
Lemma run_func_from st l0 rest :
  func_start l0 = true ->
  forallb (fun l => negb (func_start l)) rest = true ->
  Spec.closes_at_last (func_depth st) (l0 :: rest) = true ->
  run st (l0 :: rest) =
  Ok (mkState
        (new_lines st ++ Spec.rewrite_form (Spec.Func (l0 :: rest)))
        false 0 (Spec.has_float_reference (l0 :: rest)) (l0 :: rest)
        (strip l0)
        (stdout st ++ (if Spec.has_float_reference (l0 :: rest)
                       then [print_clear (strip l0)] else []))).
Proof.
  intros Hl0 Hrest Hcl.
  rewrite <- run_enter.
  assert (Hst : enter_func st l0 =
                mkState (new_lines st) true (func_depth st) (float_marker l0)
                        [] (strip l0) (stdout st)).
  { unfold enter_func. rewrite Hl0. reflexivity. }
  rewrite run_inside; try assumption.
  - rewrite Hst. unfold closed, Spec.rewrite_form, Spec.has_float_reference.
    simpl. rewrite orb_assoc, orb_diag. reflexivity.
  - rewrite Hst. reflexivity.
  - apply enter_func_twice.
  - rewrite enter_func_depth. assumption.
Qed.

(** A well-formed function definition met between two forms. *)
Lemma run_func st l0 rest :
  at_top st ->
  Spec.well_formed (Spec.Func (l0 :: rest)) = true ->
  run st (l0 :: rest) =
  Ok (mkState
        (new_lines st ++ Spec.rewrite_form (Spec.Func (l0 :: rest)))
        false 0 (Spec.has_float_reference (l0 :: rest)) (l0 :: rest)
        (strip l0)
        (stdout st ++ (if Spec.has_float_reference (l0 :: rest)
                       then [print_clear (strip l0)] else []))).
Proof.
  intros [Hin Hd] Hwf. unfold Spec.well_formed in Hwf.
  apply andb_prop in Hwf. destruct Hwf as [Hwf Hcl].
  apply andb_prop in Hwf. destruct Hwf as [Hl0 Hrest].
  apply run_func_from; try assumption. rewrite Hd. assumption.
Qed.

(** A module made of well-formed forms goes through the loop form by
    form. *)
Lemma run_module : forall fs st,
  at_top st ->
  forallb Spec.well_formed fs = true ->
  exists st',
    run st (Spec.module_lines fs) = Ok st'
    /\ new_lines st' = new_lines st ++ Spec.rewrite fs
    /\ at_top st'.
Proof.
  induction fs as [|f fs IH]; intros st Htop Hwf.
  - exists st. simpl. rewrite app_nil_r. auto.
  - simpl in Hwf. apply andb_prop in Hwf. destruct Hwf as [Hf Hfs].
    unfold Spec.module_lines, Spec.rewrite. simpl flat_map.
    rewrite run_app.
    destruct f as [l | body].
    + simpl in Hf. apply negb_true_iff in Hf.
      destruct Htop as [Hin Hd].
      simpl Spec.lines_of.
      replace (run st [l])
        with (Ok (mkState (new_lines st ++ [l]) false (func_depth st)
                    (clear_func st) (func_lines st) (func_sig st)
                    (stdout st)))
        by (simpl; rewrite (step_plain _ _ Hin Hf); reflexivity).
      destruct (IH (mkState (new_lines st ++ [l]) false (func_depth st)
                      (clear_func st) (func_lines st) (func_sig st)
                      (stdout st))) as (st' & Hrun & Hnl & Htop');
        [split; simpl; [reflexivity | assumption] | assumption |].
      exists st'. repeat split; try apply Htop'.
      * exact Hrun.
      * rewrite Hnl. simpl. rewrite <- app_assoc. reflexivity.
    + destruct body as [|l0 rest]; [discriminate|].
      simpl Spec.lines_of.
      rewrite (run_func _ _ _ Htop Hf).
      match goal with
      | |- context [run ?s (flat_map _ _)] =>
          destruct (IH s) as (st' & Hrun & Hnl & Htop');
            [split; reflexivity | assumption |]
      end.
      exists st'. repeat split; try apply Htop'.
      * exact Hrun.
      * rewrite Hnl. simpl new_lines. rewrite <- app_assoc. reflexivity.
Qed.

(** From inside a function, lines that all end at a positive depth leave
    the function open, with the lines in the buffer. *)
Lemma run_open : forall ls st,
  inside_func st = true ->
  forallb (fun l => negb (func_start l)) ls = true ->
  Spec.stays_open (func_depth st) ls = true ->
  run st ls = Ok (opened st ls).
Proof.
  induction ls as [|l ls IH]; intros st Hin Hls Hop.
  - unfold opened. simpl. rewrite orb_false_r, app_nil_r.
    rewrite <- Hin. destruct st; reflexivity.
  - simpl in Hls, Hop.
    apply andb_prop in Hls. destruct Hls as [Hl Hls].
    apply negb_true_iff in Hl.
    apply andb_prop in Hop. destruct Hop as [Hpos Hop].
    apply Z.ltb_lt in Hpos.
    simpl. unfold step, scan_line.
    rewrite (enter_func_other _ _ Hl), Hin. cbv zeta.
    destruct (line_depth (func_depth st) l <? 0) eqn:E1;
      [apply Z.ltb_lt in E1; lia|].
    destruct (line_depth (func_depth st) l =? 0) eqn:E2;
      [apply Z.eqb_eq in E2; lia|].
    rewrite IH; try assumption; try reflexivity.
    unfold opened. simpl.
    rewrite <- orb_assoc, <- app_assoc. reflexivity.
Qed.

(** The first line of a function, met between two forms, with the
    function still open at its end. *)
Lemma run_open_func st l0 rest :
  at_top st ->
  func_start l0 = true ->
  forallb (fun l => negb (func_start l)) rest = true ->
  Spec.stays_open 0 (l0 :: rest) = true ->
  run st (l0 :: rest) =
  Ok (mkState (new_lines st) true (fold_left line_depth (l0 :: rest) 0)
              (existsb float_marker (l0 :: rest)) (l0 :: rest)
              (strip l0) (stdout st)).
Proof.
  intros [Hin Hd] Hl0 Hrest Hop.
  simpl in Hop. apply andb_prop in Hop. destruct Hop as [Hpos Hop].
  apply Z.ltb_lt in Hpos.
  simpl run. unfold step, scan_line, enter_func. rewrite Hl0, Hd.
  cbn [inside_func func_depth clear_func func_lines func_sig stdout new_lines].
  destruct (line_depth 0 l0 <? 0) eqn:E1; [apply Z.ltb_lt in E1; lia|].
  destruct (line_depth 0 l0 =? 0) eqn:E2; [apply Z.eqb_eq in E2; lia|].
  rewrite run_open; try assumption; try reflexivity.
  unfold opened. simpl. rewrite orb_diag. reflexivity.
Qed.

(** A function that ends at its last line is open after each of its
    shorter beginnings. *)
Lemma closes_stays_open : forall body d k,
  Spec.closes_at_last d body = true ->
  (k < length body)%nat ->
  Spec.stays_open d (firstn k body) = true.
Proof.
  induction body as [|l rest IH]; intros d k Hcl Hk; [inversion Hk|].
  destruct k as [|k]; [reflexivity|].
  destruct rest as [|l' rest]; [simpl in Hk; lia|].
  change (Spec.closes_at_last d (l :: l' :: rest))
    with ((0 <? line_depth d l)
          && Spec.closes_at_last (line_depth d l) (l' :: rest)) in Hcl.
  apply andb_prop in Hcl. destruct Hcl as [Hpos Hcl].
  change (firstn (S k) (l :: l' :: rest)) with (l :: firstn k (l' :: rest)).
  simpl Spec.stays_open. rewrite Hpos. simpl andb.
  apply IH; [assumption | simpl in Hk |- *; lia].
Qed.

Lemma stays_open_positive : forall ls d,
  ls <> [] -> Spec.stays_open d ls = true ->
  0 < fold_left line_depth ls d.
Proof.
  induction ls as [|l ls IH]; intros d Hne Hop; [congruence|].
  simpl in Hop. apply andb_prop in Hop. destruct Hop as [Hpos Hop].
  apply Z.ltb_lt in Hpos. simpl.
  destruct ls as [|l' ls]; [exact Hpos|].
  apply IH; [discriminate | assumption].
Qed.

(** ** Substrings *)

Lemma startswith_iff : forall p s,
  startswith p s = true <-> exists b, s = p ++ b.
Proof.
  induction p as [|a p IH]; intro s; simpl.
  - split; [intros _; exists s; reflexivity | reflexivity].
  - destruct s as [|c s].
    + split; [discriminate | intros [b Hb]; discriminate].
    + rewrite andb_true_iff, N.eqb_eq, IH. split.
      * intros [-> [b ->]]. exists b. reflexivity.
      * intros [b Hb]. injection Hb as -> ->. split; [reflexivity | exists b; reflexivity].
Qed.

(** [contains p s] holds exactly when [p] occurs somewhere in [s]. *)
Lemma contains_iff : forall p s,
  contains p s = true <-> exists a b, s = a ++ p ++ b.
Proof.
  intros p s. induction s as [|c s IH].
  - simpl. rewrite orb_false_r, startswith_iff. split.
    + intros [b Hb]. exists [], b. exact Hb.
    + intros [a [b Hab]]. destruct a; [|discriminate].
      exists b. exact Hab.
  - change (contains p (c :: s)) with (startswith p (c :: s) || contains p s).
    rewrite orb_true_iff, startswith_iff, IH. split.
    + intros [[b Hb] | [a [b Hab]]].
      * exists [], b. exact Hb.
      * exists (c :: a), b. simpl. rewrite Hab. reflexivity.
    + intros [a [b Hab]]. destruct a as [|x a].
      * left. exists b. exact Hab.
      * right. injection Hab as _ Hab. exists a, b. exact Hab.
Qed.

(** A line carries a floating-point marker exactly when the characters
    [f64] or [f32] occur in it, wherever that is. *)
Lemma float_marker_iff l :
  float_marker l = true <->
  exists a b, l = a ++ str "f64" ++ b \/ l = a ++ str "f32" ++ b.
Proof.
  unfold float_marker. rewrite orb_true_iff, !contains_iff. split.
  - intros [[a [b H]] | [a [b H]]]; exists a, b; auto.
  - intros [a [b [H | H]]]; [left | right]; exists a, b; exact H.
Qed.

(** ** What holds of the variables throughout the loop *)

Lemma invariant_init : invariant init.
Proof. repeat split. Qed.

Lemma invariant_step st l st' :
  invariant st -> step st l = Ok st' -> invariant st'.
Proof.
  intros (Hflag & Hdepth & Hbuf) Hstep.
  assert (Hent : clear_func (enter_func st l) || float_marker l =
                 existsb float_marker (func_lines (enter_func st l) ++ [l])
                 /\ (inside_func (enter_func st l) = false ->
                     enter_func st l = st)
                 /\ (inside_func (enter_func st l) = true ->
                     exists l0 rest,
                       func_lines (enter_func st l) ++ [l] = l0 :: rest
                       /\ func_start l0 = true
                       /\ func_sig (enter_func st l) = strip l0)).
  { unfold enter_func. destruct (func_start l) eqn:Hl; simpl.
    - split; [|split; [discriminate|]].
      + rewrite orb_diag, orb_false_r. reflexivity.
      + intros _. exists l, []. auto.
    - split; [|split; [reflexivity|]].
      + rewrite existsb_app, Hflag. simpl. rewrite orb_false_r. reflexivity.
      + intro Hin. destruct (func_lines st) as [|l0 rest]; [congruence|].
        exists l0, (rest ++ [l]). split; [reflexivity | exact Hbuf]. }
  destruct Hent as (Hex & Hsame & Hhead).
  unfold step, scan_line in Hstep.
  destruct (inside_func (enter_func st l)) eqn:Hin.
  - cbv zeta in Hstep.
    destruct (Hhead eq_refl) as (l0 & rest & Hl0 & Hstart & Hsig).
    destruct (line_depth (func_depth (enter_func st l)) l <? 0) eqn:E1;
      [discriminate|].
    apply Z.ltb_ge in E1.
    destruct (line_depth (func_depth (enter_func st l)) l =? 0) eqn:E2.
    + apply Z.eqb_eq in E2.
      destruct (clear_func (enter_func st l) || float_marker l) eqn:E3;
        injection Hstep as <-; repeat split; simpl; auto;
        rewrite Hl0; auto.
    + apply Z.eqb_neq in E2.
      injection Hstep as <-; repeat split; simpl; auto; try lia;
        rewrite Hl0; auto.
  - rewrite (Hsame eq_refl) in Hstep, Hin. rewrite Hin in Hdepth, Hbuf.
    injection Hstep as <-. repeat split; simpl; auto.
Qed.

Lemma invariant_run : forall ls st st',
  invariant st -> run st ls = Ok st' -> invariant st'.
Proof.
  induction ls as [|l ls IH]; intros st st' Hinv Hrun; simpl in Hrun.
  - injection Hrun as <-. assumption.
  - destruct (step st l) as [st1 | e st1] eqn:Hstep; [|discriminate].
    apply (IH st1); [eapply invariant_step; eassumption | assumption].
Qed.

Lemma at_top_init : at_top init.
Proof. split; reflexivity. Qed.

(** The rewriter leaves a module without floating-point functions as it
    is. *)
Lemma rewrite_clean : forall fs,
  Spec.clean fs = true -> Spec.rewrite fs = Spec.module_lines fs.
Proof.
  induction fs as [|f fs IH]; intro Hc; [reflexivity|].
  simpl in Hc. apply andb_prop in Hc. destruct Hc as [Hf Hc].
  unfold Spec.rewrite, Spec.module_lines in *. simpl.
  rewrite (IH Hc). f_equal.
  destruct f as [l | body]; [reflexivity|].
  simpl. apply negb_true_iff in Hf. rewrite Hf. reflexivity.
Qed.

Lemma join_readlines : forall t, join (readlines t) = t.
Proof.
  unfold join. induction t as [|c t IH]; [reflexivity|].
  simpl. destruct (c =? NL)%N.
  - simpl. rewrite IH. reflexivity.
  - destruct (readlines t) as [|l ls]; simpl in *; rewrite <- IH;
      [|reflexivity].
    reflexivity.
Qed.

(** ** The rewrite of a module *)

Lemma scan_module (fs : list Spec.form) :
  forallb Spec.well_formed fs = true ->
  exists st,
    scan (Spec.module_lines fs) = Ok st
    /\ new_lines st = Spec.rewrite fs
    /\ at_top st.
Proof.
  intro Hwf.
  destruct (run_module fs init at_top_init Hwf) as (st & Hrun & Hnl & Htop).
  exists st. repeat split; try apply Htop; assumption.
Qed.

(** C1, as the loop has it: a module made of plain lines and of function
    definitions that each open between two forms, hold no further line
    opening a function and end where the depth is back to zero at the end
    of a line, is scanned without error, and the output is, in order,
    each plain line and each function without floating-point marker as
    it is, and the stub for each function with one. *)
Theorem C1_wellformed_module_rewritten (fs : list Spec.form) :
  forallb Spec.well_formed fs = true ->
  exists st,
    scan (Spec.module_lines fs) = Ok st
    /\ new_lines st = Spec.rewrite fs
    /\ at_top st.
Proof.
  exact (scan_module fs).
Qed.

Lemma C1_wellformed_module_rewritten_witness :
  exists st,
    scan (Spec.module_lines Sample.forms) = Ok st
    /\ new_lines st = Spec.rewrite Sample.forms
    /\ at_top st.
Proof.
  apply (C1_wellformed_module_rewritten Sample.forms).
  vm_compute. reflexivity.
Defined.

(** C1 does not hold of every module that is scanned without error: in
    [Sample.reopened] no function is cleared (nothing is printed and the
    stub is not in the output), and yet the line that opens [$a] is not
    in the output. *)
Lemma C1_counterexample :
  exists st,
    scan Sample.reopened = Ok st
    /\ stdout st = []
    /\ ~ In STUB (new_lines st)
    /\ In (ln "  (func $a") Sample.reopened
    /\ ~ In (ln "  (func $a") (new_lines st)
    /\ new_lines st = [ln "(module"; ln "  (func $b)"; ln "  )"; ln ")"].
Proof.
  eexists. split; [vm_compute; reflexivity|].
  repeat split.
  - vm_compute. intuition discriminate.
  - vm_compute. auto.
  - vm_compute. intuition discriminate.
Qed.

(** ** Functions that are cleared *)

(** C2, as the loop has it: a function definition with a floating-point
    marker in one of its lines, none of whose lines after the first
    opens a function (the lines from a line that opens a function to
    the line at whose end the depth is back to zero; between two forms
    the depth starts from zero), goes through the loop without error and
    adds to the output one line only, the fixed line [(func )], however
    many lines the definition has; that line carries no floating-point
    marker. *)
Theorem C2_float_function_replaced_by_stub
    (st : state) (l0 : line) (rest : list line) :
  func_start l0 = true ->
  forallb (fun l => negb (func_start l)) rest = true ->
  Spec.closes_at_last (func_depth st) (l0 :: rest) = true ->
  Spec.has_float_reference (l0 :: rest) = true ->
  exists st',
    run st (l0 :: rest) = Ok st'
    /\ new_lines st' = new_lines st ++ [STUB]
    /\ clear_func st' = true
    /\ at_top st'
    /\ STUB = str "(func )" ++ [NL]
    /\ float_marker STUB = false.
Proof.
  intros Hl0 Hrest Hcl Hfl.
  eexists. split; [apply (run_func_from _ _ _ Hl0 Hrest Hcl)|].
  unfold at_top. cbn [new_lines inside_func func_depth clear_func].
  unfold Spec.rewrite_form. rewrite Hfl. repeat split.
Qed.

Lemma C2_float_function_replaced_by_stub_witness :
  exists st',
    run init (Sample.f_open :: Sample.f_rest) = Ok st'
    /\ new_lines st' = new_lines init ++ [STUB]
    /\ clear_func st' = true
    /\ at_top st'
    /\ STUB = str "(func )" ++ [NL]
    /\ float_marker STUB = false.
Proof.
  apply (C2_float_function_replaced_by_stub init Sample.f_open Sample.f_rest).
  - vm_compute. reflexivity.
  - vm_compute. reflexivity.
  - vm_compute. reflexivity.
  - vm_compute. reflexivity.
Defined.

(** C2 does not hold of every function definition: the three lines of
    [Sample.reopened_float] open with a line that opens a function, the
    depth counted from zero is back to zero at the third line and not
    before, and the first line has the marker [f64]; yet the loop puts
    out the second and third line as they are, and no stub. *)
Lemma C2_counterexample :
  func_start (hd [] Sample.reopened_float) = true
  /\ Spec.closes_at_last 0 Sample.reopened_float = true
  /\ Spec.has_float_reference Sample.reopened_float = true
  /\ scan Sample.reopened_float
     = Ok (mkState [ln "  (func $b)"; ln "  )"] false 0 false
             [ln "  (func $b)"; ln "  )"] (str "(func $b)") [])
  /\ ~ In STUB [ln "  (func $b)"; ln "  )"].
Proof.
  repeat split; try (vm_compute; reflexivity).
  vm_compute. intuition discriminate.
Qed.

(** Scenario A of the specification: a module that is one function of
    five lines taking a double becomes the stub line. *)
Example scenario_A :
  patch_text (join Sample.f_float) = inl STUB.
Proof. vm_compute. reflexivity. Qed.

(** Scenario C: of two adjacent functions, the one with the marker is
    cleared and the other one is kept, in their order. *)
Example scenario_C :
  patch_text (join (Sample.f_float ++ Sample.g_int))
  = inl (join (STUB :: Sample.g_int)).
Proof. vm_compute. reflexivity. Qed.

(** ** Where a function ends *)

(** While the depth is positive at the end of each line, the scanner
    stays inside the function and puts nothing out, whether or not one
    of the lines opens a function again. *)
Lemma run_stays_inside : forall ls st,
  inside_func st = true ->
  Spec.stays_open (func_depth st) ls = true ->
  exists st',
    run st ls = Ok st'
    /\ inside_func st' = true
    /\ func_depth st' = fold_left line_depth ls (func_depth st)
    /\ new_lines st' = new_lines st.
Proof.
  induction ls as [|l ls IH]; intros st Hin Hop.
  - exists st. auto.
  - simpl in Hop. apply andb_prop in Hop. destruct Hop as [Hpos Hop].
    apply Z.ltb_lt in Hpos.
    assert (Hin' := enter_func_inside st l (or_introl Hin)).
    assert (Hd := enter_func_depth st l).
    assert (Hnl := enter_func_new_lines st l).
    simpl. unfold step, scan_line. rewrite Hin', Hd. cbv zeta.
    destruct (line_depth (func_depth st) l <? 0) eqn:E1;
      [apply Z.ltb_lt in E1; lia|].
    destruct (line_depth (func_depth st) l =? 0) eqn:E2;
      [apply Z.eqb_eq in E2; lia|].
    match goal with
    | |- context [run ?s ls] =>
        destruct (IH s eq_refl Hop) as (st' & Hrun & Hi & Hdd & Hn)
    end.
    exists st'. simpl in Hdd, Hn.
    split; [exact Hrun|]. split; [exact Hi|].
    split; [exact Hdd | rewrite Hn; exact Hnl].
Qed.

(** The scanner leaves the function at the line at whose end the depth
    is back to zero. *)
Lemma run_leaves_at_zero : forall rest l st,
  inside_func st = true ->
  Spec.closes_at_last (func_depth st) (l :: rest) = true ->
  exists st',
    run st (l :: rest) = Ok st'
    /\ inside_func st' = false
    /\ func_depth st' = 0.
Proof.
  induction rest as [|l' rest IH]; intros l st Hin Hcl;
    assert (Hin' := enter_func_inside st l (or_introl Hin));
    assert (Hd := enter_func_depth st l).
  - simpl in Hcl. apply Z.eqb_eq in Hcl.
    simpl. unfold step, scan_line. rewrite Hin', Hd, Hcl. simpl.
    destruct (clear_func (enter_func st l) || float_marker l);
      eexists; repeat split.
  - change (Spec.closes_at_last (func_depth st) (l :: l' :: rest))
      with ((0 <? line_depth (func_depth st) l)
            && Spec.closes_at_last (line_depth (func_depth st) l) (l' :: rest))
      in Hcl.
    apply andb_prop in Hcl. destruct Hcl as [Hpos Hcl].
    apply Z.ltb_lt in Hpos.
    change (run st (l :: l' :: rest))
      with (match step st l with
            | Ok st' => run st' (l' :: rest)
            | Raise e st' => Raise e st'
            end).
    unfold step at 1. unfold scan_line. rewrite Hin', Hd. cbv zeta.
    destruct (line_depth (func_depth st) l <? 0) eqn:E1;
      [apply Z.ltb_lt in E1; lia|].
    destruct (line_depth (func_depth st) l =? 0) eqn:E2;
      [apply Z.eqb_eq in E2; lia|].
    apply IH; [reflexivity | exact Hcl].
Qed.

(** C5, as the loop has it: from the line that opens a function between
    two forms, the scanner stays inside the function, and puts nothing
    out, after each shorter beginning of the lines up to the first one
    at whose end the depth counted from zero at the opening line is zero
    again, and leaves the function at that line; a depth above one on
    the way does not end the function, nor does a line that opens a
    function again, and a function of one line (no further lines) ends
    at that line.  When no line after the first opens a function, the
    buffer holds exactly the lines read so far, and at the end the whole
    definition. *)
Theorem C5_function_ends_at_depth_zero
    (st : state) (l0 : line) (rest : list line) :
  at_top st ->
  func_start l0 = true ->
  Spec.closes_at_last 0 (l0 :: rest) = true ->
  (forall k, (0 < k < length (l0 :: rest))%nat ->
     exists stk,
       run st (firstn k (l0 :: rest)) = Ok stk
       /\ inside_func stk = true
       /\ 0 < func_depth stk
       /\ new_lines stk = new_lines st
       /\ (forallb (fun l => negb (func_start l)) rest = true ->
           func_lines stk = firstn k (l0 :: rest)))
  /\ (exists st',
        run st (l0 :: rest) = Ok st'
        /\ inside_func st' = false
        /\ func_depth st' = 0
        /\ (forallb (fun l => negb (func_start l)) rest = true ->
            func_lines st' = l0 :: rest)).
Proof.
  intros Htop Hl0 Hcl.
  assert (Hin : inside_func (enter_func st l0) = true)
    by (apply enter_func_inside; right; exact Hl0).
  assert (Hd : func_depth (enter_func st l0) = 0)
    by (rewrite enter_func_depth; apply Htop).
  split.
  - intros k Hk. destruct k as [|k]; [lia|].
    assert (Hop := closes_stays_open _ _ (S k) Hcl (proj2 Hk)).
    change (firstn (S k) (l0 :: rest)) with (l0 :: firstn k rest) in *.
    destruct (run_stays_inside (l0 :: firstn k rest) (enter_func st l0) Hin)
      as (stk & Hrun & Hi & Hdk & Hn);
      [rewrite Hd; exact Hop|].
    rewrite run_enter in Hrun. rewrite Hd in Hdk.
    rewrite enter_func_new_lines in Hn.
    exists stk. split; [exact Hrun|]. split; [exact Hi|].
    split; [|split; [exact Hn|]].
    + rewrite Hdk. apply stays_open_positive; [discriminate | exact Hop].
    + intro Hrest.
      assert (Hno : forallb (fun l => negb (func_start l)) (firstn k rest)
                    = true).
      { rewrite <- (firstn_skipn k rest), forallb_app in Hrest.
        apply andb_prop in Hrest. apply Hrest. }
      rewrite (run_open_func _ _ _ Htop Hl0 Hno Hop) in Hrun.
      injection Hrun as <-. reflexivity.
  - destruct (run_leaves_at_zero rest l0 (enter_func st l0) Hin)
      as (st' & Hrun & Hi & Hd');
      [rewrite Hd; exact Hcl|].
    rewrite run_enter in Hrun.
    exists st'. split; [exact Hrun|]. split; [exact Hi|].
    split; [exact Hd'|].
    intro Hrest.
    assert (Hcl' : Spec.closes_at_last (func_depth st) (l0 :: rest) = true)
      by (rewrite (proj2 Htop); exact Hcl).
    rewrite (run_func_from _ _ _ Hl0 Hrest Hcl') in Hrun.
    injection Hrun as <-. reflexivity.
Qed.

Lemma C5_function_ends_at_depth_zero_witness :
  (forall k, (0 < k < length (Sample.g_open :: Sample.g_rest))%nat ->
     exists stk,
       run init (firstn k (Sample.g_open :: Sample.g_rest)) = Ok stk
       /\ inside_func stk = true
       /\ 0 < func_depth stk
       /\ new_lines stk = new_lines init
       /\ (forallb (fun l => negb (func_start l)) Sample.g_rest = true ->
           func_lines stk = firstn k (Sample.g_open :: Sample.g_rest)))
  /\ (exists st',
        run init (Sample.g_open :: Sample.g_rest) = Ok st'
        /\ inside_func st' = false
        /\ func_depth st' = 0
        /\ (forallb (fun l => negb (func_start l)) Sample.g_rest = true ->
            func_lines st' = Sample.g_open :: Sample.g_rest)).
Proof.
  apply (C5_function_ends_at_depth_zero init Sample.g_open Sample.g_rest).
  - split; reflexivity.
  - vm_compute. reflexivity.
  - vm_compute. reflexivity.
Defined.

(** C5 does not hold of the function that the scanner delimits when a
    line opens a function again: in [Sample.reopened] the function [$a]
    opens at the second line and the depth counted from zero there is
    back to zero at the fourth line and not before; the scanner leaves
    the function at the fourth line, but the function it has delimited
    is the third and fourth line, without the opening line. *)
Lemma C5_counterexample :
  func_start (ln "  (func $a") = true
  /\ Spec.closes_at_last 0 [ln "  (func $a"; ln "  (func $b)"; ln "  )"]
     = true
  /\ firstn 4 Sample.reopened
     = ln "(module" :: [ln "  (func $a"; ln "  (func $b)"; ln "  )"]
  /\ exists st,
       scan (firstn 4 Sample.reopened) = Ok st
       /\ inside_func st = false
       /\ func_lines st = [ln "  (func $b)"; ln "  )"]
       /\ func_lines st <> [ln "  (func $a"; ln "  (func $b)"; ln "  )"]
       /\ new_lines st = [ln "(module"; ln "  (func $b)"; ln "  )"].
Proof.
  repeat split; try (vm_compute; reflexivity).
  eexists. split; [vm_compute; reflexivity|].
  repeat split. vm_compute. discriminate.
Qed.

(** Scenario D: in [Sample.g_int] the depth is three inside the second
    line; the function is open after two lines and ends at the third. *)
Example scenario_D :
  In 3 (Spec.depths 1 (nth 0 Sample.g_rest []))
  /\ (exists st, scan (firstn 2 Sample.g_int) = Ok st /\ inside_func st = true)
  /\ patch_text (join Sample.g_int) = inl (join Sample.g_int).
Proof.
  split; [vm_compute; auto 20|].
  split; [eexists; split; vm_compute; reflexivity|].
  vm_compute. reflexivity.
Qed.

(** A function on one line is one form. *)
Example one_line_function :
  scan Sample.h_one
  = Ok (mkState Sample.h_one false 0 false Sample.h_one
          (str "(func $h (param i32))") []).
Proof. vm_compute. reflexivity. Qed.

(** ** The floating-point flag *)

(** Once the flag is set, lines that do not open a function keep it set;
    the function that is being scanned ends as the stub, and the lines
    after it are plain lines. *)
Lemma run_flag_kept : forall ls s s',
  clear_func s = true ->
  forallb (fun l => negb (func_start l)) ls = true ->
  run s ls = Ok s' ->
  clear_func s' = true
  /\ (inside_func s = false ->
      inside_func s' = false /\ new_lines s' = new_lines s ++ ls)
  /\ (inside_func s = true -> inside_func s' = false ->
      exists before after,
        ls = before ++ after
        /\ new_lines s' = new_lines s ++ STUB :: after).
Proof.
  induction ls as [|l ls IH]; intros s s' Hfl Hls Hrun.
  - simpl in Hrun. injection Hrun as <-.
    split; [assumption|]. split.
    + intro H. rewrite app_nil_r. auto.
    + intros H1 H2. congruence.
  - simpl in Hls. apply andb_prop in Hls. destruct Hls as [Hl Hls].
    apply negb_true_iff in Hl.
    simpl in Hrun. unfold step in Hrun.
    rewrite (enter_func_other _ _ Hl) in Hrun.
    unfold scan_line in Hrun. rewrite Hfl in Hrun. cbv zeta in Hrun.
    simpl orb in Hrun.
    destruct (inside_func s) eqn:Hin.
    + destruct (line_depth (func_depth s) l <? 0); [discriminate|].
      destruct (line_depth (func_depth s) l =? 0).
      * eapply IH in Hrun; [|reflexivity|assumption].
        destruct Hrun as (Hc & Htop & _).
        destruct (Htop eq_refl) as [Hin' Hnl]. simpl in Hnl.
        split; [assumption|]. split; [discriminate|].
        intros _ _. exists [l], ls. split; [reflexivity|].
        rewrite Hnl, <- app_assoc. reflexivity.
      * eapply IH in Hrun; [|reflexivity|assumption].
        destruct Hrun as (Hc & _ & Hins).
        split; [assumption|]. split; [discriminate|].
        intros _ Hin'. destruct (Hins eq_refl Hin') as (b & a & -> & Hnl).
        exists (l :: b), a. split; [reflexivity | exact Hnl].
    + eapply IH in Hrun; [|reflexivity|assumption].
      destruct Hrun as (Hc & Htop & _).
      destruct (Htop eq_refl) as [Hin' Hnl]. simpl in Hnl.
      split; [assumption|]. split; [|discriminate].
      intros _. split; [assumption|].
      rewrite Hnl, <- app_assoc. reflexivity.
Qed.

(** C7, as the loop has it: from a line with a floating-point marker
    that opens a function or belongs to the one being scanned, the flag
    stays set over all further lines that do not open a function,
    whatever they hold, and when the function ends the output receives
    the stub in its place. *)
Theorem C7_float_flag_monotonic
    (st st' : state) (l : line) (ls : list line) :
  inside_func st = true \/ func_start l = true ->
  float_marker l = true ->
  forallb (fun x => negb (func_start x)) ls = true ->
  run st (l :: ls) = Ok st' ->
  clear_func st' = true
  /\ (inside_func st' = false ->
      exists before after,
        l :: ls = before ++ after
        /\ before <> []
        /\ new_lines st' = new_lines st ++ STUB :: after).
Proof.
  intros Hfun Hmark Hls Hrun.
  simpl in Hrun. unfold step, scan_line in Hrun.
  assert (Hin := enter_func_inside st l Hfun).
  assert (Hnl := enter_func_new_lines st l).
  rewrite Hin, Hmark, orb_true_r in Hrun. cbv zeta in Hrun.
  destruct (line_depth (func_depth (enter_func st l)) l <? 0); [discriminate|].
  destruct (line_depth (func_depth (enter_func st l)) l =? 0).
  - eapply run_flag_kept in Hrun; [|reflexivity|assumption].
    destruct Hrun as (Hc & Htop & _).
    destruct (Htop eq_refl) as [_ Hout]. simpl in Hout.
    split; [assumption|]. intros _.
    exists [l], ls. split; [reflexivity|]. split; [discriminate|].
    rewrite Hout, Hnl, <- app_assoc. reflexivity.
  - eapply run_flag_kept in Hrun; [|reflexivity|assumption].
    destruct Hrun as (Hc & _ & Hins).
    split; [assumption|]. intros Hin'.
    destruct (Hins eq_refl Hin') as (b & a & -> & Hout). simpl in Hout.
    exists (l :: b), a. split; [reflexivity|]. split; [discriminate|].
    rewrite Hout, Hnl. reflexivity.
Qed.

Lemma C7_float_flag_monotonic_witness :
  clear_func Sample.f_done = true
  /\ (inside_func Sample.f_done = false ->
      exists before after,
        Sample.f_open :: Sample.f_rest = before ++ after
        /\ before <> []
        /\ new_lines Sample.f_done = new_lines init ++ STUB :: after).
Proof.
  apply (C7_float_flag_monotonic init Sample.f_done Sample.f_open
           Sample.f_rest).
  - right. vm_compute. reflexivity.
  - vm_compute. reflexivity.
  - vm_compute. reflexivity.
  - vm_compute. reflexivity.
Defined.

(** C7 does not hold regardless of later lines: in
    [Sample.reopened_float] the first line has the marker [f64] and sets
    the flag; the second line opens a function again while the scanner
    is still inside the first one, and the flag is computed anew from
    that line alone; the function ends at the third line with the flag
    not set, and no stub is put out. *)
Lemma C7_counterexample :
  float_marker (hd [] Sample.reopened_float) = true
  /\ scan (firstn 1 Sample.reopened_float) = Ok Sample.in_a
  /\ inside_func Sample.in_a = true
  /\ clear_func Sample.in_a = true
  /\ scan (firstn 2 Sample.reopened_float) = Ok Sample.in_b
  /\ inside_func Sample.in_b = true
  /\ clear_func Sample.in_b = false
  /\ exists st,
       scan Sample.reopened_float = Ok st
       /\ inside_func st = false
       /\ clear_func st = false
       /\ ~ In STUB (new_lines st).
Proof.
  repeat split; try (vm_compute; reflexivity).
  eexists. split; [vm_compute; reflexivity|].
  repeat split. vm_compute. intuition discriminate.
Qed.

(** C10, as the loop has it: the function that the scanner ends is made
    of the lines read from the last line that opens a function, that
    line included, to the line at whose end the depth is back to zero.
    Wherever the scanner is when it meets these lines, inside a function
    or not, it goes through them without error, the buffer holds
    exactly these lines, the flag is set exactly when one of these lines
    has the characters [f64] or [f32] somewhere in it, and the output
    receives the stub when the flag is set and these lines as they are
    when it is not. *)
Theorem C10_flag_iff_marker_in_some_line
    (st : state) (l0 : line) (rest : list line) :
  func_start l0 = true ->
  forallb (fun l => negb (func_start l)) rest = true ->
  Spec.closes_at_last (func_depth st) (l0 :: rest) = true ->
  exists st',
    run st (l0 :: rest) = Ok st'
    /\ inside_func st' = false
    /\ func_lines st' = l0 :: rest
    /\ (clear_func st' = true <->
        exists x a b,
          In x (l0 :: rest)
          /\ (x = a ++ str "f64" ++ b \/ x = a ++ str "f32" ++ b))
    /\ new_lines st' =
       new_lines st ++ (if clear_func st' then [STUB] else l0 :: rest).
Proof.
  intros Hl0 Hrest Hcl.
  eexists. split; [apply (run_func_from _ _ _ Hl0 Hrest Hcl)|].
  cbn [inside_func func_lines clear_func new_lines].
  split; [reflexivity|]. split; [reflexivity|]. split; [|reflexivity].
  unfold Spec.has_float_reference. rewrite existsb_exists. split.
  - intros (x & Hx & Hm). apply float_marker_iff in Hm.
    destruct Hm as (a & b & Hab). exists x, a, b. auto.
  - intros (x & a & b & Hx & Hab). exists x. split; [assumption|].
    apply float_marker_iff. exists a, b. assumption.
Qed.

Lemma C10_flag_iff_marker_in_some_line_witness :
  exists st',
    run Sample.in_a (ln "  (func $b)" :: [ln "  )"]) = Ok st'
    /\ inside_func st' = false
    /\ func_lines st' = ln "  (func $b)" :: [ln "  )"]
    /\ (clear_func st' = true <->
        exists x a b,
          In x (ln "  (func $b)" :: [ln "  )"])
          /\ (x = a ++ str "f64" ++ b \/ x = a ++ str "f32" ++ b))
    /\ new_lines st' =
       new_lines Sample.in_a
       ++ (if clear_func st' then [STUB]
           else ln "  (func $b)" :: [ln "  )"]).
Proof.
  apply (C10_flag_iff_marker_in_some_line Sample.in_a (ln "  (func $b)")
           [ln "  )"]).
  - vm_compute. reflexivity.
  - vm_compute. reflexivity.
  - vm_compute. reflexivity.
Defined.

(** C10 does not hold of all the lines of a function when one of them
    opens a function again: the first line of [Sample.reopened_float]
    has the characters [f64], the depth counted from zero at that line
    is back to zero at the third line and not before, and yet the flag
    is not set when the function ends and the second and third line
    are put out as they are. *)
Lemma C10_counterexample :
  In (ln "  (func $a (param f64)") Sample.reopened_float
  /\ ln "  (func $a (param f64)"
     = str "  (func $a (param " ++ str "f64" ++ str ")" ++ [NL]
  /\ Spec.closes_at_last 0 Sample.reopened_float = true
  /\ exists st,
       scan Sample.reopened_float = Ok st
       /\ inside_func st = false
       /\ clear_func st = false
       /\ new_lines st = [ln "  (func $b)"; ln "  )"].
Proof.
  split; [left; reflexivity|].
  split; [vm_compute; reflexivity|].
  split; [vm_compute; reflexivity|].
  eexists. split; [vm_compute; reflexivity|]. repeat split.
Qed.

(** The marker is looked for in the raw text of the line: a function
    whose name holds [f64] is cleared although it has no floating-point
    type, and so is one with the marker in a comment. *)
Example marker_in_identifier :
  patch_text (join Sample.named_f64) = inl STUB.
Proof. vm_compute. reflexivity. Qed.

Example marker_in_comment :
  patch_text (join [ln "(func $k (param i32)"; ln "  nop ;; not f32"; ln ")"])
  = inl STUB.
Proof. vm_compute. reflexivity. Qed.

(** The search is case-sensitive. *)
Example marker_upper_case :
  float_marker (ln "(func $F64 (param i32))") = false.
Proof. vm_compute. reflexivity. Qed.

(** ** Modules without floating-point functions *)

(** C8, as the loop has it: on the text of a module made of well-formed
    forms (plain lines, and function definitions none of whose lines
    after the first opens a function) in which no function has a
    floating-point marker, the rewrite gives the text back, and so does
    the rewrite of its result. *)
Theorem C8_idempotent_on_clean_module (t : text) (fs : list Spec.form) :
  readlines t = Spec.module_lines fs ->
  forallb Spec.well_formed fs = true ->
  Spec.clean fs = true ->
  patch_text t = inl t
  /\ match patch_text t with
     | inl t' => patch_text t'
     | inr e => inr e
     end = patch_text t.
Proof.
  intros Ht Hwf Hclean.
  assert (H : patch_text t = inl t).
  { unfold patch_text. rewrite Ht.
    destruct (scan_module fs Hwf) as (st & -> & Hnl & _).
    rewrite Hnl, (rewrite_clean _ Hclean), <- Ht, join_readlines.
    reflexivity. }
  split; [exact H|]. rewrite H. exact H.
Qed.

Lemma C8_idempotent_on_clean_module_witness :
  patch_text (join (Spec.module_lines Sample.clean_forms))
  = inl (join (Spec.module_lines Sample.clean_forms))
  /\ match patch_text (join (Spec.module_lines Sample.clean_forms)) with
     | inl t' => patch_text t'
     | inr e => inr e
     end = patch_text (join (Spec.module_lines Sample.clean_forms)).
Proof.
  apply (C8_idempotent_on_clean_module _ Sample.clean_forms).
  - vm_compute. reflexivity.
  - vm_compute. reflexivity.
  - vm_compute. reflexivity.
Defined.

(** C8 does not hold of every module with balanced parentheses and
    without marker: in [More.reopened_clean] the second line opens a
    function again and ends it, so that the first line is left out of
    the output, and the rewrite of that output raises, its first line
    ending at a negative depth. *)
Lemma C8_counterexample :
  fold_left line_depth More.reopened_clean 0 = 0
  /\ existsb float_marker More.reopened_clean = false
  /\ patch_text (join More.reopened_clean)
     = inl (join More.reopened_clean_output)
  /\ join More.reopened_clean_output <> join More.reopened_clean
  /\ patch_text (join More.reopened_clean_output)
     = inr (Exception (str "func depth < 0")).
Proof.
  repeat split; try (vm_compute; reflexivity).
  vm_compute. discriminate.
Qed.

(** ** The script in its environment *)

Lemma between_prints (out : list text) : Forall between (map EvPrint out).
Proof. induction out; simpl; constructor; simpl; auto. Qed.

Lemma prints_quiet (out : list text) :
  existsb is_write (map EvPrint out) = false
  /\ existsb (is_run encoder_argv) (map EvPrint out) = false.
Proof. induction out; simpl; auto. Qed.

Lemma argv_differ : decoder_argv <> encoder_argv.
Proof. vm_compute. discriminate. Qed.

Lemma paths_differ : PATCHED_WAT <> PATCHED_WASM.
Proof. vm_compute. discriminate. Qed.

Lemma EvRun_inj argv rc argv' rc' :
  EvRun argv rc = EvRun argv' rc' -> argv = argv' /\ rc = rc'.
Proof. intro H. inversion H. auto. Qed.

Section Script.

(** The environment of the run. *)
Variable w : world.

Lemma exec_bind {A B} (p : prog A) (f : A -> prog B) :
  forall h,
    exec w (pbind p f) h =
    match exec w p h with
    | (h', inl a) => exec w (f a) h'
    | (h', inr e) => (h', inr e)
    end.
Proof.
  induction p as [a | e | argv k IH | path k IH | s k IH | path data k IH];
    intro h; simpl; try reflexivity.
  - apply IH.
  - destruct (content w h path); [apply IH | reflexivity].
  - apply IH.
  - destruct (writable w h path); [apply IH | reflexivity].
Qed.

Lemma exec_print_all :
  forall out h,
    exec w (print_all out) h = (h ++ map EvPrint out, inl tt).
Proof.
  induction out as [|s out IH]; intro h; simpl.
  - rewrite app_nil_r. reflexivity.
  - rewrite IH, <- app_assoc. reflexivity.
Qed.

(** A run of the script, stage by stage. *)
Lemma exec_main :
  exec w main [] =
  let rc1 := returncode w [] decoder_argv in
  let h1 := [EvRun decoder_argv rc1] in
  if rc1 =? 0 then
    match content w h1 ORIGIN_WAT with
    | None => (h1 ++ [EvRead ORIGIN_WAT None], inr OSError)
    | Some t =>
        let h2 := h1 ++ [EvRead ORIGIN_WAT (Some t)] in
        match scan (readlines t) with
        | Raise e st => (h2 ++ map EvPrint (stdout st), inr e)
        | Ok st =>
            let h3 := h2 ++ map EvPrint (stdout st) in
            let data := join (new_lines st) in
            if writable w h3 PATCHED_WAT then
              let h4 := h3 ++ [EvWrite PATCHED_WAT data true] in
              let rc2 := returncode w h4 encoder_argv in
              (h4 ++ [EvRun encoder_argv rc2],
               if rc2 =? 0 then inl tt else inr AssertionError)
            else (h3 ++ [EvWrite PATCHED_WAT data false], inr OSError)
        end
    end
  else ([EvRun decoder_argv (returncode w [] decoder_argv)],
        inr AssertionError).
Proof.
  cbv zeta. unfold main, subprocess_run, open_readlines, open_write.
  cbn [pbind exec app].
  destruct (returncode w [] decoder_argv =? 0); [|reflexivity].
  cbn [assert pbind exec app].
  destruct (content w _ ORIGIN_WAT) as [t|]; [|reflexivity].
  cbn [pbind exec app]. unfold scan_prog.
  destruct (scan (readlines t)) as [st | e st].
  - rewrite !exec_bind, exec_print_all. cbn [pbind exec app].
    destruct (writable w _ PATCHED_WAT); [|reflexivity].
    cbn [pbind exec app].
    destruct (returncode w _ encoder_argv =? 0); reflexivity.
  - rewrite !exec_bind, exec_print_all. reflexivity.
Qed.

(** A run of the script on a text whose scan raises: the decoder, the
    file read, what was printed so far, and the exception. *)
Lemma exec_main_raise (t : text) e st :
  returncode w [] decoder_argv = 0 ->
  content w [EvRun decoder_argv 0] ORIGIN_WAT = Some t ->
  scan (readlines t) = Raise e st ->
  exec w main []
  = ([EvRun decoder_argv 0; EvRead ORIGIN_WAT (Some t)]
       ++ map EvPrint (stdout st), inr e).
Proof.
  intros Hrc Ht Hscan. rewrite exec_main. cbv zeta.
  rewrite Hrc. simpl Z.eqb. cbv iota. rewrite Ht, Hscan. reflexivity.
Qed.

(** A run of the script on a text that is scanned without error, in an
    environment where the patched text can be written. *)
Lemma exec_main_ok (t : text) st :
  returncode w [] decoder_argv = 0 ->
  content w [EvRun decoder_argv 0] ORIGIN_WAT = Some t ->
  (forall h, writable w h PATCHED_WAT = true) ->
  scan (readlines t) = Ok st ->
  exists h rc,
    exec w main []
    = (h ++ [EvWrite PATCHED_WAT (join (new_lines st)) true;
             EvRun encoder_argv rc],
       if rc =? 0 then inl tt else inr AssertionError).
Proof.
  intros Hrc Ht Hw Hscan. rewrite exec_main. cbv zeta.
  rewrite Hrc. simpl Z.eqb. cbv iota. rewrite Ht, Hscan, Hw.
  exists ([EvRun decoder_argv 0; EvRead ORIGIN_WAT (Some t)]
          ++ map EvPrint (stdout st)).
  eexists. rewrite <- !app_assoc. reflexivity.
Qed.

(** The three ways a run of the script can go. *)
Lemma main_shape (tr : trace) (r : unit + exn) :
  exec w main [] = (tr, r) ->
  (returncode w [] decoder_argv <> 0
   /\ tr = [EvRun decoder_argv (returncode w [] decoder_argv)]
   /\ r = inr AssertionError)
  \/ (returncode w [] decoder_argv = 0
      /\ exists body,
           Forall between body
           /\ ((tr = EvRun decoder_argv 0 :: body /\ r <> inl tt)
               \/ (exists rc,
                     tr = (EvRun decoder_argv 0 :: body)
                          ++ [EvRun encoder_argv rc]
                     /\ r = if rc =? 0 then inl tt
                            else inr AssertionError))).
Proof.
  rewrite exec_main. cbv zeta.
  destruct (returncode w [] decoder_argv =? 0) eqn:E1.
  - apply Z.eqb_eq in E1. rewrite E1. intro H. right.
    split; [reflexivity|].
    destruct (content w _ ORIGIN_WAT) as [t|].
    + destruct (scan (readlines t)) as [st | e st].
      * destruct (writable w _ PATCHED_WAT).
        -- injection H as <- <-.
           exists ([EvRead ORIGIN_WAT (Some t)] ++ map EvPrint (stdout st)
                   ++ [EvWrite PATCHED_WAT (join (new_lines st)) true]).
           split.
           ++ repeat (apply Forall_app; split);
                try apply between_prints; repeat constructor.
           ++ right. eexists. split; [|reflexivity].
              simpl. reflexivity.
        -- injection H as <- <-.
           exists ([EvRead ORIGIN_WAT (Some t)] ++ map EvPrint (stdout st)
                   ++ [EvWrite PATCHED_WAT (join (new_lines st)) false]).
           split.
           ++ repeat (apply Forall_app; split);
                try apply between_prints; repeat constructor.
           ++ left. split; [|discriminate].
              simpl. reflexivity.
      * injection H as <- <-.
        exists ([EvRead ORIGIN_WAT (Some t)] ++ map EvPrint (stdout st)).
        split.
        -- apply Forall_app; split; try apply between_prints;
             repeat constructor.
        -- left. split; [|discriminate]. reflexivity.
    + injection H as <- <-. exists [EvRead ORIGIN_WAT None]. split.
      * repeat constructor.
      * left. split; [reflexivity | discriminate].
  - apply Z.eqb_neq in E1. intro H. injection H as <- <-. left. auto.
Qed.

End Script.

(** C9: when the decoder ends with a status other than zero, the script
    does nothing more: its only event is that one run of the decoder,
    and it ends with the failed assertion, so the file is not read, no
    line is scanned and nothing is written.  When a run of the encoder
    ends with a status other than zero, that run is the last event and
    the only run of the encoder, and the script ends with the failed
    assertion.  The script itself never writes the patched binary. *)
Theorem C9_converter_failure_aborts
    (w : world) (tr : trace) (r : unit + exn) :
  exec w main [] = (tr, r) ->
  (returncode w [] decoder_argv <> 0 ->
   tr = [EvRun decoder_argv (returncode w [] decoder_argv)]
   /\ r = inr AssertionError)
  /\ (forall rc, In (EvRun decoder_argv rc) tr -> rc <> 0 ->
      tr = [EvRun decoder_argv rc] /\ r = inr AssertionError)
  /\ (forall rc, In (EvRun encoder_argv rc) tr -> rc <> 0 ->
      r = inr AssertionError
      /\ exists h,
           tr = h ++ [EvRun encoder_argv rc]
           /\ forall rc', ~ In (EvRun encoder_argv rc') h)
  /\ (forall data done, ~ In (EvWrite PATCHED_WASM data done) tr).
Proof.
  intro Hexec. apply main_shape in Hexec.
  assert (Hbody : forall body argv rc,
            Forall between body -> ~ In (EvRun argv rc) body).
  { intros body argv rc Hb Hin.
    apply (proj1 (Forall_forall _ _) Hb) in Hin. exact Hin. }
  assert (Hwr : forall body data done,
            Forall between body -> ~ In (EvWrite PATCHED_WASM data done) body).
  { intros body data done Hb Hin.
    apply (proj1 (Forall_forall _ _) Hb) in Hin. simpl in Hin.
    apply paths_differ. symmetry. exact Hin. }
  destruct Hexec
    as [(Hrc & -> & ->) | (Hrc & body & Hb & [[-> Hr] | (rc2 & -> & ->)])].
  - split; [auto|]. split; [|split].
    + intros rc [Hin | []] _. apply EvRun_inj in Hin as [_ <-]. auto.
    + intros rc [Hin | []] _. apply EvRun_inj in Hin as [Hargv _].
      destruct (argv_differ Hargv).
    + intros data done [Hin | []]. discriminate.
  - split; [|split; [|split]].
    + intro Hne. destruct (Hne Hrc).
    + intros rc [Hin | Hin] Hne.
      * apply EvRun_inj in Hin as [_ <-]. congruence.
      * destruct (Hbody _ _ _ Hb Hin).
    + intros rc [Hin | Hin] Hne.
      * apply EvRun_inj in Hin as [Hargv _]. destruct (argv_differ Hargv).
      * destruct (Hbody _ _ _ Hb Hin).
    + intros data done [Hin | Hin]; [discriminate|].
      exact (Hwr _ _ _ Hb Hin).
  - split; [|split; [|split]].
    + intro Hne. destruct (Hne Hrc).
    + intros rc Hin Hne. apply in_app_or in Hin.
      destruct Hin as [[Hin | Hin] | [Hin | []]].
      * apply EvRun_inj in Hin as [_ <-]. congruence.
      * destruct (Hbody _ _ _ Hb Hin).
      * apply EvRun_inj in Hin as [Hargv _].
        destruct (argv_differ (eq_sym Hargv)).
    + intros rc Hin Hne. apply in_app_or in Hin.
      destruct Hin as [[Hin | Hin] | [Hin | []]].
      * apply EvRun_inj in Hin as [Hargv _]. destruct (argv_differ Hargv).
      * destruct (Hbody _ _ _ Hb Hin).
      * apply EvRun_inj in Hin as [_ ->]. split.
        -- apply Z.eqb_neq in Hne. rewrite Hne. reflexivity.
        -- eexists. split; [reflexivity|].
           intros rc' [Hin | Hin].
           ++ apply EvRun_inj in Hin as [Hargv _]. destruct (argv_differ Hargv).
           ++ destruct (Hbody _ _ _ Hb Hin).
    + intros data done Hin. apply in_app_or in Hin.
      destruct Hin as [[Hin | Hin] | [Hin | []]]; try discriminate.
      exact (Hwr _ _ _ Hb Hin).
Qed.

Lemma C9_converter_failure_aborts_witness :
  (returncode Sample.encoder_fails [] decoder_argv <> 0 ->
   Sample.encoder_fails_trace =
   [EvRun decoder_argv (returncode Sample.encoder_fails [] decoder_argv)]
   /\ @inr unit exn AssertionError = inr AssertionError)
  /\ (forall rc,
      In (EvRun decoder_argv rc) Sample.encoder_fails_trace -> rc <> 0 ->
      Sample.encoder_fails_trace = [EvRun decoder_argv rc]
      /\ @inr unit exn AssertionError = inr AssertionError)
  /\ (forall rc,
      In (EvRun encoder_argv rc) Sample.encoder_fails_trace -> rc <> 0 ->
      @inr unit exn AssertionError = inr AssertionError
      /\ exists h,
           Sample.encoder_fails_trace = h ++ [EvRun encoder_argv rc]
           /\ forall rc', ~ In (EvRun encoder_argv rc') h)
  /\ (forall data done,
      ~ In (EvWrite PATCHED_WASM data done) Sample.encoder_fails_trace).
Proof.
  apply (C9_converter_failure_aborts Sample.encoder_fails).
  vm_compute. reflexivity.
Defined.

(** With a decoder that fails, the run is that one event. *)
Example decoder_failure :
  exec Sample.decoder_fails main []
  = ([EvRun decoder_argv 2], inr AssertionError).
Proof. vm_compute. reflexivity. Qed.

(** ** Lines that open a function *)

(** C6, as the loop has it: a line whose trimmed content begins with
    [(func] starts a function wherever the scanner is, inside a function
    or not: the buffer is that line alone, the flag is computed from
    that line alone and the signature is taken from it, while the depth
    goes on from its current value.  A line that does not begin so is
    added to the buffer inside a function and is a plain line outside. *)
Theorem C6_func_start_anywhere (st st' : state) (l : line) :
  step st l = Ok st' ->
  (func_start l = true ->
   func_lines st' = [l]
   /\ clear_func st' = float_marker l
   /\ func_sig st' = strip l
   /\ func_depth st' = line_depth (func_depth st) l
   /\ inside_func st' = negb (func_depth st' =? 0))
  /\ (func_start l = false -> inside_func st = true ->
      func_lines st' = func_lines st ++ [l]
      /\ clear_func st' = clear_func st || float_marker l
      /\ func_sig st' = func_sig st
      /\ func_depth st' = line_depth (func_depth st) l
      /\ inside_func st' = negb (func_depth st' =? 0))
  /\ (func_start l = false -> inside_func st = false ->
      new_lines st' = new_lines st ++ [l]
      /\ inside_func st' = false
      /\ func_lines st' = func_lines st
      /\ clear_func st' = clear_func st
      /\ func_depth st' = func_depth st).
Proof.
  intro Hstep. unfold step, enter_func, scan_line in Hstep.
  destruct (func_start l) eqn:Hl.
  - cbn [inside_func func_depth clear_func func_lines func_sig new_lines stdout]
      in Hstep.
    cbv zeta in Hstep. rewrite orb_diag in Hstep.
    split; [intros _ | split; discriminate].
    destruct (line_depth (func_depth st) l <? 0); [discriminate|].
    destruct (line_depth (func_depth st) l =? 0) eqn:E.
    + destruct (float_marker l); injection Hstep as <-; simpl;
        rewrite E; repeat split.
    + injection Hstep as <-. simpl. rewrite E. repeat split.
  - split; [discriminate|].
    destruct (inside_func st) eqn:Hin.
    + split; [intros _ _ | intros _; discriminate].
      cbv zeta in Hstep.
      destruct (line_depth (func_depth st) l <? 0); [discriminate|].
      destruct (line_depth (func_depth st) l =? 0) eqn:E.
      * destruct (clear_func st || float_marker l) eqn:Ec;
          injection Hstep as <-; simpl; rewrite E; repeat split.
      * injection Hstep as <-. simpl. rewrite E. repeat split.
    + split; [intros _; discriminate | intros _ _].
      injection Hstep as <-. simpl. repeat split.
Qed.

Lemma C6_func_start_anywhere_witness :
  (func_start (ln "  (func $b)") = true ->
   func_lines Sample.in_b = [ln "  (func $b)"]
   /\ clear_func Sample.in_b = float_marker (ln "  (func $b)")
   /\ func_sig Sample.in_b = strip (ln "  (func $b)")
   /\ func_depth Sample.in_b
      = line_depth (func_depth Sample.in_a) (ln "  (func $b)")
   /\ inside_func Sample.in_b = negb (func_depth Sample.in_b =? 0))
  /\ (func_start (ln "  (func $b)") = false ->
      inside_func Sample.in_a = true ->
      func_lines Sample.in_b = func_lines Sample.in_a ++ [ln "  (func $b)"]
      /\ clear_func Sample.in_b
         = clear_func Sample.in_a || float_marker (ln "  (func $b)")
      /\ func_sig Sample.in_b = func_sig Sample.in_a
      /\ func_depth Sample.in_b
         = line_depth (func_depth Sample.in_a) (ln "  (func $b)")
      /\ inside_func Sample.in_b = negb (func_depth Sample.in_b =? 0))
  /\ (func_start (ln "  (func $b)") = false ->
      inside_func Sample.in_a = false ->
      new_lines Sample.in_b = new_lines Sample.in_a ++ [ln "  (func $b)"]
      /\ inside_func Sample.in_b = false
      /\ func_lines Sample.in_b = func_lines Sample.in_a
      /\ clear_func Sample.in_b = clear_func Sample.in_a
      /\ func_depth Sample.in_b = func_depth Sample.in_a).
Proof.
  apply (C6_func_start_anywhere Sample.in_a Sample.in_b (ln "  (func $b)")).
  vm_compute. reflexivity.
Defined.

(** C6 does not hold inside a function: after the first line of
    [Sample.reopened_float] the scanner is inside [$a] with the flag set,
    and the line that opens [$b] empties the buffer and clears the flag
    instead of being added as a line of [$a]; the output is then the
    lines of [$b] and the closing line, without the first line. *)
Lemma C6_counterexample :
  scan (firstn 1 Sample.reopened_float) = Ok Sample.in_a
  /\ inside_func Sample.in_a = true
  /\ step Sample.in_a (ln "  (func $b)") = Ok Sample.in_b
  /\ func_lines Sample.in_b <> func_lines Sample.in_a ++ [ln "  (func $b)"]
  /\ clear_func Sample.in_a = true
  /\ clear_func Sample.in_b = false
  /\ patch_text (join Sample.reopened_float)
     = inl (join [ln "  (func $b)"; ln "  )"]).
Proof.
  repeat split; try (vm_compute; reflexivity).
  vm_compute. discriminate.
Qed.

(** ** Structural errors *)

(** The loop stops at the first line that raises. *)
Lemma run_raise pre l post st e st' :
  run init pre = Ok st ->
  step st l = Raise e st' ->
  scan (pre ++ l :: post) = Raise e st'.
Proof.
  intros Hpre Hstep. unfold scan. rewrite run_app, Hpre. simpl.
  rewrite Hstep. reflexivity.
Qed.

(** C3, as the loop has it: the depth is tested once per line, after the
    last character of the line.  If the depth is negative at the end of
    a line of a function, the scan stops there with the exception
    [func depth < 0], and the script ends with it after the file was
    read: nothing is written and the encoder is not run.  If the depth
    is not negative at the end of the line, the line raises nothing,
    whatever the depth was inside the line. *)
Theorem C3_negative_depth_at_line_end
    (t : text) (pre post : list line) (l : line) (st : state) :
  readlines t = pre ++ l :: post ->
  scan pre = Ok st ->
  inside_func st = true \/ func_start l = true ->
  (line_depth (func_depth st) l < 0 ->
   (exists st',
      scan (readlines t) = Raise (Exception (str "func depth < 0")) st')
   /\ patch_text t = inr (Exception (str "func depth < 0"))
   /\ forall w,
        returncode w [] decoder_argv = 0 ->
        content w [EvRun decoder_argv 0] ORIGIN_WAT = Some t ->
        exists tr,
          exec w main [] = (tr, inr (Exception (str "func depth < 0")))
          /\ existsb is_write tr = false
          /\ existsb (is_run encoder_argv) tr = false)
  /\ (0 <= line_depth (func_depth st) l ->
      exists st', scan (pre ++ [l]) = Ok st').
Proof.
  intros Ht Hpre Hfun.
  assert (Hin := enter_func_inside st l Hfun).
  assert (Hd := enter_func_depth st l).
  split.
  - intro Hneg.
    assert (Hstep : exists st',
              step st l = Raise (Exception (str "func depth < 0")) st').
    { unfold step, scan_line. rewrite Hin, Hd. cbv zeta.
      apply Z.ltb_lt in Hneg. rewrite Hneg. eexists. reflexivity. }
    destruct Hstep as [st' Hstep].
    assert (Hscan := run_raise pre l post st _ st' Hpre Hstep).
    rewrite <- Ht in Hscan.
    split; [exists st'; exact Hscan|].
    split; [unfold patch_text; rewrite Hscan; reflexivity|].
    intros w Hrc Hc. eexists.
    split; [apply (exec_main_raise w t _ st' Hrc Hc Hscan)|].
    rewrite !existsb_app.
    destruct (prints_quiet (stdout st')) as [-> ->].
    split; reflexivity.
  - intro Hpos. unfold scan. rewrite run_app. fold (scan pre). rewrite Hpre.
    simpl. unfold step, scan_line. rewrite Hin, Hd. cbv zeta.
    apply Z.ltb_ge in Hpos. rewrite Hpos.
    destruct (line_depth (func_depth st) l =? 0);
      [destruct (clear_func (enter_func st l) || float_marker l)|];
      eexists; reflexivity.
Qed.

Lemma C3_negative_depth_at_line_end_witness :
  (line_depth (func_depth Sample.negative_state) Sample.negative_line < 0 ->
   (exists st',
      scan (readlines (join (Sample.negative_pre
                               ++ Sample.negative_line
                               :: Sample.negative_post)))
      = Raise (Exception (str "func depth < 0")) st')
   /\ patch_text (join (Sample.negative_pre
                         ++ Sample.negative_line :: Sample.negative_post))
      = inr (Exception (str "func depth < 0"))
   /\ forall w,
        returncode w [] decoder_argv = 0 ->
        content w [EvRun decoder_argv 0] ORIGIN_WAT
        = Some (join (Sample.negative_pre
                        ++ Sample.negative_line :: Sample.negative_post)) ->
        exists tr,
          exec w main [] = (tr, inr (Exception (str "func depth < 0")))
          /\ existsb is_write tr = false
          /\ existsb (is_run encoder_argv) tr = false)
  /\ (0 <= line_depth (func_depth Sample.negative_state) Sample.negative_line ->
      exists st', scan (Sample.negative_pre ++ [Sample.negative_line]) = Ok st').
Proof.
  apply (C3_negative_depth_at_line_end
           (join (Sample.negative_pre
                    ++ Sample.negative_line :: Sample.negative_post))
           Sample.negative_pre Sample.negative_post Sample.negative_line
           Sample.negative_state).
  - vm_compute. reflexivity.
  - vm_compute. reflexivity.
  - left. reflexivity.
Defined.

(** Scenario E: a closing parenthesis without its opening one inside a
    function body; the depth is negative at the end of that line. *)
Example scenario_E :
  line_depth (func_depth Sample.negative_state) Sample.negative_line = -1
  /\ patch_text (join (Sample.negative_pre
                         ++ Sample.negative_line :: Sample.negative_post))
     = inr (Exception (str "func depth < 0")).
Proof. split; vm_compute; reflexivity. Qed.

(** C3 does not hold of a depth that is negative inside a line only: on
    the line [Sample.dipping] the count goes 1, 0, -1, 0, and the line
    is scanned without error as a function of one line, which is
    written to the output as it is. *)
Lemma C3_counterexample :
  In (-1) (Spec.depths 0 Sample.dipping)
  /\ line_depth 0 Sample.dipping = 0
  /\ scan [Sample.dipping]
     = Ok (mkState [Sample.dipping] false 0 false [Sample.dipping]
             (str "(func $f) ) (") [])
  /\ patch_text (join [Sample.dipping]) = inl (join [Sample.dipping]).
Proof.
  split; [vm_compute; auto 20|].
  repeat split; vm_compute; reflexivity.
Qed.

(** C4, as the script has it: when the input ends inside a function that
    was opened after well-formed forms and is still open, nothing is
    raised: the scan ends with the function's lines in the buffer, the
    output is the rewrite of the forms before the function, without the
    lines of the function, and the script writes it and goes on to the
    encoder. *)
Theorem C4_open_function_at_end_is_dropped
    (t : text) (fs : list Spec.form) (l0 : line) (rest : list line) :
  readlines t = Spec.module_lines fs ++ l0 :: rest ->
  forallb Spec.well_formed fs = true ->
  func_start l0 = true ->
  forallb (fun l => negb (func_start l)) rest = true ->
  Spec.stays_open 0 (l0 :: rest) = true ->
  (exists st,
     scan (readlines t) = Ok st
     /\ inside_func st = true
     /\ func_lines st = l0 :: rest
     /\ new_lines st = Spec.rewrite fs)
  /\ patch_text t = inl (join (Spec.rewrite fs))
  /\ forall w,
       returncode w [] decoder_argv = 0 ->
       content w [EvRun decoder_argv 0] ORIGIN_WAT = Some t ->
       (forall h, writable w h PATCHED_WAT = true) ->
       exists h rc,
         exec w main []
         = (h ++ [EvWrite PATCHED_WAT (join (Spec.rewrite fs)) true;
                  EvRun encoder_argv rc],
            if rc =? 0 then inl tt else inr AssertionError).
Proof.
  intros Ht Hwf Hl0 Hrest Hop.
  destruct (scan_module fs Hwf) as (st0 & Hrun0 & Hnl0 & Htop0).
  assert (Hscan : scan (readlines t)
                  = Ok (mkState (new_lines st0) true
                          (fold_left line_depth (l0 :: rest) 0)
                          (existsb float_marker (l0 :: rest)) (l0 :: rest)
                          (strip l0) (stdout st0))).
  { rewrite Ht. unfold scan in *. rewrite run_app, Hrun0.
    apply run_open_func; assumption. }
  split; [|split].
  - eexists. split; [exact Hscan|]. repeat split. exact Hnl0.
  - unfold patch_text. rewrite Hscan. simpl new_lines. rewrite Hnl0.
    reflexivity.
  - intros w Hrc Hc Hw.
    destruct (exec_main_ok w t _ Hrc Hc Hw Hscan) as (h & rc & Hex).
    simpl new_lines in Hex. rewrite Hnl0 in Hex.
    exists h, rc. exact Hex.
Qed.

Lemma C4_open_function_at_end_is_dropped_witness :
  (exists st,
     scan (readlines (join Sample.truncated)) = Ok st
     /\ inside_func st = true
     /\ func_lines st = Sample.truncated_open :: Sample.truncated_rest
     /\ new_lines st = Spec.rewrite Sample.truncated_forms)
  /\ patch_text (join Sample.truncated)
     = inl (join (Spec.rewrite Sample.truncated_forms))
  /\ forall w,
       returncode w [] decoder_argv = 0 ->
       content w [EvRun decoder_argv 0] ORIGIN_WAT
       = Some (join Sample.truncated) ->
       (forall h, writable w h PATCHED_WAT = true) ->
       exists h rc,
         exec w main []
         = (h ++ [EvWrite PATCHED_WAT
                    (join (Spec.rewrite Sample.truncated_forms)) true;
                  EvRun encoder_argv rc],
            if rc =? 0 then inl tt else inr AssertionError).
Proof.
  apply (C4_open_function_at_end_is_dropped (join Sample.truncated)
           Sample.truncated_forms Sample.truncated_open
           Sample.truncated_rest).
  - vm_compute. reflexivity.
  - vm_compute. reflexivity.
  - vm_compute. reflexivity.
  - vm_compute. reflexivity.
  - vm_compute. reflexivity.
Defined.

(** C4 does not hold: [Sample.truncated] ends inside the function [$a],
    and the scan ends without an exception, inside the function; the
    text that is written is the first line alone. *)
Lemma C4_counterexample :
  (exists st,
     scan (readlines (join Sample.truncated)) = Ok st
     /\ inside_func st = true
     /\ 0 < func_depth st)
  /\ patch_text (join Sample.truncated) = inl (ln "(module").
Proof.
  split; [eexists; split; [vm_compute; reflexivity|]|].
  - split; reflexivity.
  - vm_compute. reflexivity.
Qed.

(** * Further properties of the script *)

(** ** The depth counter *)

(** X1: the depth at the end of a line is the depth before the line plus
    the number of opening parentheses of the line minus the number of
    its closing parentheses; no other character counts. *)
Theorem X1_line_depth_counts_parentheses (d : Z) (l : line) :
  line_depth d l = d + count_char LPAREN l - count_char RPAREN l.
Proof.
  unfold line_depth. revert d.
  induction l as [|c l IH]; intro d; simpl; [lia|].
  rewrite IH. unfold paren.
  destruct (c =? LPAREN)%N eqn:E1; destruct (c =? RPAREN)%N eqn:E2; try lia.
  apply N.eqb_eq in E1. apply N.eqb_eq in E2. subst c. discriminate.
Qed.

(** X3: after any number of lines scanned without exception the depth is
    not negative, and it is zero exactly when the scanner is between two
    forms. *)
Theorem X3_depth_zero_iff_outside (ls : list line) (st : state) :
  scan ls = Ok st ->
  0 <= func_depth st /\ (inside_func st = false <-> func_depth st = 0).
Proof.
  intro Hscan.
  destruct (invariant_run ls init st invariant_init Hscan) as (_ & Hd & _).
  destruct (inside_func st); split; try lia; split; try discriminate;
    auto; lia.
Qed.

Lemma X3_depth_zero_iff_outside_witness :
  0 <= func_depth Sample.named_open
  /\ (inside_func Sample.named_open = false
      <-> func_depth Sample.named_open = 0).
Proof.
  apply (X3_depth_zero_iff_outside [ln "  (func $leaf64 (param i32)"]).
  vm_compute. reflexivity.
Defined.

(** ** The exception of the loop *)

(** Where a run of the loop raises: after a beginning that raises
    nothing, at one line. *)
Lemma run_raise_at : forall ls st0 e st,
  run st0 ls = Raise e st ->
  exists pre l post s,
    ls = pre ++ l :: post /\ run st0 pre = Ok s /\ step s l = Raise e st.
Proof.
  induction ls as [|l ls IH]; intros st0 e st Hrun; [discriminate|].
  simpl in Hrun. destruct (step st0 l) as [s1 | e1 s1] eqn:Hstep.
  - destruct (IH _ _ _ Hrun) as (pre & x & post & s & -> & Hpre & Hx).
    exists (l :: pre), x, post, s. repeat split; try assumption.
    simpl. rewrite Hstep. assumption.
  - injection Hrun as -> ->. exists [], l, ls, st0. auto.
Qed.

(** X4: the loop raises nothing but [Exception ("func depth < 0")].  When
    it does, it is at the first line of a function at whose end the
    depth is negative: the lines before were scanned without exception,
    and the output and what was printed are as they were before that
    line. *)
Theorem X4_only_exception_is_negative_depth
    (ls : list line) (e : exn) (st : state) :
  scan ls = Raise e st ->
  e = Exception (str "func depth < 0")
  /\ inside_func st = true
  /\ func_depth st < 0
  /\ exists pre l post st0,
       ls = pre ++ l :: post
       /\ scan pre = Ok st0
       /\ func_depth st = line_depth (func_depth st0) l
       /\ (inside_func st0 = true \/ func_start l = true)
       /\ new_lines st = new_lines st0
       /\ stdout st = stdout st0.
Proof.
  intro Hscan.
  destruct (run_raise_at _ _ _ _ Hscan) as (pre & l & post & s & -> & Hpre & Hl).
  unfold step, scan_line in Hl.
  assert (Hnl := enter_func_new_lines s l).
  assert (Hd := enter_func_depth s l).
  assert (Hout : stdout (enter_func s l) = stdout s).
  { unfold enter_func. destruct (func_start l); reflexivity. }
  assert (Hfun : inside_func (enter_func s l) = true ->
                 inside_func s = true \/ func_start l = true).
  { unfold enter_func. destruct (func_start l); auto. }
  destruct (inside_func (enter_func s l)); [|discriminate].
  cbv zeta in Hl.
  destruct (line_depth (func_depth (enter_func s l)) l <? 0) eqn:E.
  - apply Z.ltb_lt in E. injection Hl as <- <-. simpl.
    repeat split; try assumption.
    exists pre, l, post, s. rewrite Hd. repeat split; auto.
  - destruct (line_depth (func_depth (enter_func s l)) l =? 0);
      [destruct (clear_func (enter_func s l) || float_marker l)|];
      discriminate.
Qed.

Lemma X4_only_exception_is_negative_depth_witness :
  Exception (str "func depth < 0") = Exception (str "func depth < 0")
  /\ inside_func More.negative_raised = true
  /\ func_depth More.negative_raised < 0
  /\ exists pre l post st0,
       Sample.negative_pre ++ Sample.negative_line :: Sample.negative_post
       = pre ++ l :: post
       /\ scan pre = Ok st0
       /\ func_depth More.negative_raised = line_depth (func_depth st0) l
       /\ (inside_func st0 = true \/ func_start l = true)
       /\ new_lines More.negative_raised = new_lines st0
       /\ stdout More.negative_raised = stdout st0.
Proof.
  apply (X4_only_exception_is_negative_depth
           (Sample.negative_pre ++ Sample.negative_line
              :: Sample.negative_post)).
  vm_compute. reflexivity.
Defined.

(** ** Modules without functions *)

(** Between two forms, lines that do not open a function go to the
    output one by one. *)
Lemma run_plain : forall ls st,
  inside_func st = false ->
  forallb (fun l => negb (func_start l)) ls = true ->
  run st ls =
  Ok (mkState (new_lines st ++ ls) false (func_depth st) (clear_func st)
              (func_lines st) (func_sig st) (stdout st)).
Proof.
  induction ls as [|l ls IH]; intros st Hin Hls.
  - simpl. rewrite app_nil_r, <- Hin. destruct st; reflexivity.
  - simpl in Hls. apply andb_prop in Hls. destruct Hls as [Hl Hls].
    apply negb_true_iff in Hl.
    simpl. rewrite (step_plain _ _ Hin Hl), IH by (auto).
    simpl. rewrite <- app_assoc. reflexivity.
Qed.

(** X5: a text none of whose lines begins, after trimming, with [(func]
    goes through unchanged, character for character, nothing is printed
    and nothing is raised, whatever parentheses and markers its lines
    hold; the empty text is such a text. *)
Theorem X5_text_without_function_unchanged (t : text) :
  forallb (fun l => negb (func_start l)) (readlines t) = true ->
  patch_text t = inl t
  /\ exists st,
       scan (readlines t) = Ok st
       /\ new_lines st = readlines t
       /\ inside_func st = false
       /\ stdout st = [].
Proof.
  intro Hls. unfold patch_text, scan.
  rewrite (run_plain _ init eq_refl Hls). simpl.
  split; [rewrite join_readlines; reflexivity|].
  eexists. repeat split.
Qed.

Lemma X5_text_without_function_unchanged_witness :
  patch_text (join More.no_function) = inl (join More.no_function)
  /\ exists st,
       scan (readlines (join More.no_function)) = Ok st
       /\ new_lines st = readlines (join More.no_function)
       /\ inside_func st = false
       /\ stdout st = [].
Proof.
  apply (X5_text_without_function_unchanged (join More.no_function)).
  vm_compute. reflexivity.
Defined.

(** ** Lines that open a function *)

Lemma lstrip_split : forall s,
  exists ws, s = ws ++ lstrip s /\ forallb isspace ws = true.
Proof.
  induction s as [|c s IH].
  - exists []. auto.
  - simpl. destruct (isspace c) eqn:E.
    + destruct IH as (ws & Hs & Hws). exists (c :: ws). split.
      * simpl. rewrite <- Hs. reflexivity.
      * simpl. rewrite E. assumption.
    + exists []. auto.
Qed.

Lemma rstrip_split (s : text) :
  exists ws, s = rstrip s ++ ws /\ forallb isspace ws = true.
Proof.
  destruct (lstrip_split (rev s)) as (ws & Hs & Hws).
  exists (rev ws). split.
  - unfold rstrip. rewrite <- rev_app_distr, <- Hs, rev_involutive.
    reflexivity.
  - apply forallb_forall. intros x Hx. apply in_rev in Hx.
    apply (proj1 (forallb_forall _ _) Hws). assumption.
Qed.

Lemma lstrip_spaces : forall ws s,
  forallb isspace ws = true -> lstrip (ws ++ s) = lstrip s.
Proof.
  induction ws as [|c ws IH]; intros s Hws; [reflexivity|].
  simpl in Hws. apply andb_prop in Hws. destruct Hws as [Hc Hws].
  simpl. rewrite Hc. apply IH. assumption.
Qed.

(** Whitespace at the end of a string has no part in a prefix without
    whitespace. *)
Lemma startswith_spaces : forall p r ws,
  forallb (fun c => negb (isspace c)) p = true ->
  forallb isspace ws = true ->
  startswith p (r ++ ws) = startswith p r.
Proof.
  induction p as [|a p IH]; intros r ws Hp Hws; [reflexivity|].
  simpl in Hp. apply andb_prop in Hp. destruct Hp as [Ha Hp].
  destruct r as [|b r]; simpl.
  - destruct ws as [|x ws]; [reflexivity|].
    simpl in Hws. apply andb_prop in Hws. destruct Hws as [Hx _].
    destruct (a =? x)%N eqn:E; [|reflexivity].
    apply N.eqb_eq in E. subst x. rewrite Hx in Ha. discriminate.
  - rewrite IH by assumption. reflexivity.
Qed.

(** X2: whether a line opens a function is decided by what follows its
    leading whitespace: the whitespace and line feed at its end have no
    part in it, and whitespace put in front of the line changes
    nothing. *)
Theorem X2_func_start_skips_whitespace (l : line) :
  func_start l = startswith (str "(func") (lstrip l)
  /\ forall ws, forallb isspace ws = true ->
                func_start (ws ++ l) = func_start l.
Proof.
  assert (H : forall x, func_start x = startswith (str "(func") (lstrip x)).
  { intro x. unfold func_start, strip.
    destruct (rstrip_split (lstrip x)) as (ws & Hs & Hws).
    rewrite Hs at 2. rewrite startswith_spaces; auto. }
  split; [apply H|].
  intros ws Hws. rewrite !H, lstrip_spaces by assumption. reflexivity.
Qed.

(** ** What the loop does to any input *)

Lemma rewritten_refl : forall ls, rewritten ls ls.
Proof. induction ls; constructor; assumption. Qed.

Lemma rewritten_none : forall ls, rewritten ls [].
Proof. induction ls; constructor; assumption. Qed.

Lemma rewritten_app a o b q :
  rewritten a o -> rewritten b q -> rewritten (a ++ b) (o ++ q).
Proof.
  intros Ha Hb. induction Ha; simpl; try constructor; assumption.
Qed.

Lemma rewritten_drop_app a b q : rewritten b q -> rewritten (a ++ b) q.
Proof. intro H. induction a; simpl; [|constructor]; assumption. Qed.

(** A buffer and the line that ends the function, replaced by the stub. *)
Lemma rewritten_cleared buf l : rewritten (buf ++ [l]) [STUB].
Proof.
  induction buf as [|x buf IH]; simpl.
  - apply rewritten_stub. constructor.
  - apply rewritten_drop. assumption.
Qed.

Lemma rewritten_In i o :
  rewritten i o -> forall x, In x o -> In x i \/ x = STUB.
Proof.
  induction 1 as [| l i o H IH | l i o H IH | l i o H IH]; intros x Hx.
  - destruct Hx.
  - destruct Hx as [-> | Hx]; [left; left; reflexivity|].
    destruct (IH x Hx); [left; right|]; auto.
  - destruct (IH x Hx); [left; right|]; auto.
  - destruct Hx as [<- | Hx]; [right; reflexivity|].
    destruct (IH x Hx); [left; right|]; auto.
Qed.

Lemma rewritten_length i o :
  rewritten i o -> (length o <= length i)%nat.
Proof. induction 1; simpl; lia. Qed.

(** One line more: the lines read so far are those behind the output
    and those held back. *)
Lemma step_rewritten st l st' pre :
  step st l = Ok st' ->
  rewritten pre (new_lines st) ->
  exists pre',
    pre ++ pending st ++ [l] = pre' ++ pending st'
    /\ rewritten pre' (new_lines st').
Proof.
  intros Hstep Hpre. unfold step, enter_func, scan_line in Hstep.
  destruct (func_start l) eqn:Hl.
  - cbn [inside_func func_depth clear_func func_lines func_sig new_lines
         stdout] in Hstep. cbv zeta in Hstep.
    destruct (line_depth (func_depth st) l <? 0); [discriminate|].
    destruct (line_depth (func_depth st) l =? 0).
    + destruct (float_marker l || float_marker l);
        injection Hstep as <-; unfold pending at 2; simpl;
        exists (pre ++ pending st ++ [l]); rewrite app_nil_r;
        (split; [reflexivity|]); apply rewritten_app; try assumption.
      * apply rewritten_cleared.
      * apply rewritten_drop_app, rewritten_refl.
    + injection Hstep as <-. unfold pending at 2. simpl.
      exists (pre ++ pending st). split.
      * rewrite <- app_assoc. reflexivity.
      * rewrite <- (app_nil_r (new_lines st)).
        apply rewritten_app; [assumption | apply rewritten_none].
  - unfold pending at 1. destruct (inside_func st) eqn:Hin.
    + cbv zeta in Hstep.
      destruct (line_depth (func_depth st) l <? 0); [discriminate|].
      destruct (line_depth (func_depth st) l =? 0).
      * destruct (clear_func st || float_marker l);
          injection Hstep as <-; unfold pending; simpl;
          exists (pre ++ func_lines st ++ [l]); rewrite app_nil_r;
          (split; [reflexivity|]); apply rewritten_app; try assumption.
        -- apply rewritten_cleared.
        -- apply rewritten_refl.
      * injection Hstep as <-. unfold pending. simpl.
        exists pre. split; [reflexivity | assumption].
    + injection Hstep as <-. unfold pending. simpl.
      exists (pre ++ [l]). rewrite app_nil_r. split; [reflexivity|].
      apply rewritten_app; [assumption | apply rewritten_refl].
Qed.

Lemma run_rewritten : forall ls st st' pre,
  run st ls = Ok st' ->
  rewritten pre (new_lines st) ->
  exists pre',
    pre ++ pending st ++ ls = pre' ++ pending st'
    /\ rewritten pre' (new_lines st').
Proof.
  induction ls as [|l ls IH]; intros st st' pre Hrun Hpre.
  - simpl in Hrun. injection Hrun as <-. exists pre.
    rewrite app_nil_r. auto.
  - simpl in Hrun. destruct (step st l) as [s1 | e s1] eqn:Hstep;
      [|discriminate].
    destruct (step_rewritten _ _ _ _ Hstep Hpre) as (p1 & Heq1 & Hp1).
    destruct (IH _ _ _ Hrun Hp1) as (p2 & Heq2 & Hp2).
    exists p2. split; [|assumption].
    rewrite <- Heq2.
    change (l :: ls) with ([l] ++ ls).
    rewrite !app_assoc. f_equal. rewrite <- !app_assoc. exact Heq1.
Qed.

(** X6: whatever the input, when the loop ends without exception its
    output is the input with some lines left out and some lines replaced
    by the stub, in the order of the input: every line of the output is
    a line of the input or the stub, and the output has no more lines
    than the input. *)
Theorem X6_output_is_input_with_omissions_and_stubs
    (ls : list line) (st : state) :
  scan ls = Ok st ->
  rewritten ls (new_lines st)
  /\ (forall x, In x (new_lines st) -> In x ls \/ x = STUB)
  /\ (length (new_lines st) <= length ls)%nat.
Proof.
  intro Hscan.
  assert (H : rewritten ls (new_lines st)).
  { destruct (run_rewritten ls init st [] Hscan rewritten_nil)
      as (pre & Heq & Hpre).
    simpl in Heq. rewrite Heq.
    rewrite <- (app_nil_r (new_lines st)).
    apply rewritten_app; [assumption | apply rewritten_none]. }
  split; [exact H|]. split.
  - apply rewritten_In. exact H.
  - apply rewritten_length. exact H.
Qed.

Lemma X6_output_is_input_with_omissions_and_stubs_witness :
  rewritten Sample.reopened
    [ln "(module"; ln "  (func $b)"; ln "  )"; ln ")"]
  /\ (forall x, In x [ln "(module"; ln "  (func $b)"; ln "  )"; ln ")"] ->
                In x Sample.reopened \/ x = STUB)
  /\ (length [ln "(module"; ln "  (func $b)"; ln "  )"; ln ")"]
      <= length Sample.reopened)%nat.
Proof.
  apply (X6_output_is_input_with_omissions_and_stubs Sample.reopened
           (mkState [ln "(module"; ln "  (func $b)"; ln "  )"; ln ")"]
              false 0 false [ln "  (func $b)"; ln "  )"]
              (str "(func $b)") [])).
  vm_compute. reflexivity.
Defined.

(** ** The loop on two modules in a row *)

Lemma step_ahead out pr s1 s2 l :
  ahead out pr s1 s2 ->
  match step s2 l with
  | Ok s2' => exists s1', step s1 l = Ok s1' /\ ahead out pr s1' s2'
  | Raise e s2' => exists s1', step s1 l = Raise e s1' /\ ahead out pr s1' s2'
  end.
Proof.
  intros (Hn & Ho & Hi & Hd & Hf).
  unfold step, enter_func, scan_line.
  destruct (func_start l).
  - cbn [inside_func func_depth clear_func func_lines func_sig new_lines
         stdout]. cbv zeta. rewrite Hd, Hn, Ho.
    destruct (line_depth (func_depth s2) l <? 0);
      [|destruct (line_depth (func_depth s2) l =? 0);
        [destruct (float_marker l || float_marker l)|]];
      eexists; (split; [reflexivity|]); unfold ahead; simpl;
      rewrite <- ?app_assoc; repeat split.
  - rewrite Hi. destruct (inside_func s2) eqn:Hin.
    + destruct (Hf eq_refl) as (Hc & Hl & Hs).
      cbv zeta. rewrite Hd, Hn, Ho, Hc, Hl, Hs.
      destruct (line_depth (func_depth s2) l <? 0);
        [|destruct (line_depth (func_depth s2) l =? 0);
          [destruct (clear_func s2 || float_marker l)|]];
        eexists; (split; [reflexivity|]); unfold ahead; simpl;
        rewrite <- ?app_assoc; repeat split.
    + eexists. split; [reflexivity|]. unfold ahead. simpl.
      rewrite Hn, Hd, <- app_assoc. repeat split; try assumption;
        discriminate.
Qed.

Lemma run_ahead out pr : forall ls s1 s2,
  ahead out pr s1 s2 ->
  match run s2 ls with
  | Ok s2' => exists s1', run s1 ls = Ok s1' /\ ahead out pr s1' s2'
  | Raise e s2' => exists s1', run s1 ls = Raise e s1' /\ ahead out pr s1' s2'
  end.
Proof.
  induction ls as [|l ls IH]; intros s1 s2 H; simpl.
  - exists s1. auto.
  - assert (Hstep := step_ahead _ _ _ _ l H).
    destruct (step s2 l) as [s2' | e s2'];
      destruct Hstep as (s1' & -> & H').
    + apply IH. assumption.
    + exists s1'. auto.
Qed.

(** X8: when the loop has gone through the lines [a] and is between two
    forms, it goes on with the lines [b] as it would from the start:
    the output and what is printed are those of [a] followed by those
    of [b] alone, and it raises exactly when [b] alone does.  Nothing
    of a function that has ended bears on the lines after it. *)
Theorem X8_scan_of_two_modules (a b : list line) (sa : state) :
  scan a = Ok sa ->
  inside_func sa = false ->
  match scan b with
  | Ok sb =>
      exists st,
        scan (a ++ b) = Ok st
        /\ new_lines st = new_lines sa ++ new_lines sb
        /\ stdout st = stdout sa ++ stdout sb
        /\ inside_func st = inside_func sb
        /\ func_depth st = func_depth sb
  | Raise e sb =>
      exists st,
        scan (a ++ b) = Raise e st
        /\ new_lines st = new_lines sa ++ new_lines sb
        /\ stdout st = stdout sa ++ stdout sb
  end.
Proof.
  intros Ha Hin.
  assert (Hd : func_depth sa = 0).
  { destruct (invariant_run a init sa invariant_init Ha) as (_ & Hd & _).
    rewrite Hin in Hd. exact Hd. }
  assert (H : ahead (new_lines sa) (stdout sa) sa init).
  { unfold ahead. simpl. rewrite !app_nil_r.
    repeat split; try assumption; discriminate. }
  assert (Hrun := run_ahead _ _ b _ _ H).
  unfold scan in *. rewrite run_app, Ha.
  destruct (run init b) as [sb | e sb];
    destruct Hrun as (st & -> & Hn & Ho & Hi & Hdd & _);
    exists st; repeat split; assumption.
Qed.

Lemma X8_scan_of_two_modules_witness :
  match scan Sample.g_int with
  | Ok sb =>
      exists st,
        scan (Sample.f_float ++ Sample.g_int) = Ok st
        /\ new_lines st = new_lines Sample.f_done ++ new_lines sb
        /\ stdout st = stdout Sample.f_done ++ stdout sb
        /\ inside_func st = inside_func sb
        /\ func_depth st = func_depth sb
  | Raise e sb =>
      exists st,
        scan (Sample.f_float ++ Sample.g_int) = Raise e st
        /\ new_lines st = new_lines Sample.f_done ++ new_lines sb
        /\ stdout st = stdout Sample.f_done ++ stdout sb
  end.
Proof.
  apply (X8_scan_of_two_modules Sample.f_float Sample.g_int Sample.f_done).
  - vm_compute. reflexivity.
  - reflexivity.
Defined.

(** ** Reading the output again *)

Lemma line_ok_nonempty m l : line_ok m l = true -> l <> [].
Proof. destruct l; [discriminate | discriminate]. Qed.

Lemma line_ok_weaken : forall l, line_ok true l = true -> line_ok false l = true.
Proof.
  induction l as [|c l IH]; [discriminate|].
  destruct l as [|c' l]; simpl.
  - intros _. apply orb_true_r.
  - intro H. apply andb_prop in H. destruct H as [-> H].
    simpl. apply IH. exact H.
Qed.

Lemma proper_lines_cons l ls :
  proper_lines (l :: ls) =
  line_ok (match ls with [] => false | _ :: _ => true end) l
  && proper_lines ls.
Proof. reflexivity. Qed.

Lemma readlines_proper : forall t, proper_lines (readlines t) = true.
Proof.
  induction t as [|c t IH]; [reflexivity|].
  simpl. destruct (c =? NL)%N eqn:E.
  - simpl. rewrite E. simpl. exact IH.
  - destruct (readlines t) as [|l ls]; simpl.
    + rewrite E. reflexivity.
    + simpl in IH. apply andb_prop in IH. destruct IH as [Hl Hls].
      rewrite Hls, andb_true_r.
      destruct l as [|x l]; [discriminate|].
      change (line_ok ?m (c :: x :: l))
        with (negb (c =? NL)%N && line_ok m (x :: l)).
      rewrite E. exact Hl.
Qed.

(** A line in front of a text whose lines are known. *)
Lemma readlines_line : forall l m t rest,
  line_ok m l = true ->
  readlines t = rest ->
  (m = false -> t = []) ->
  readlines (l ++ t) = l :: rest.
Proof.
  induction l as [|c l IH]; intros m t rest Hl Ht Hm; [discriminate|].
  destruct l as [|x l].
  - simpl in Hl. simpl. destruct (c =? NL)%N eqn:E.
    + rewrite Ht. reflexivity.
    + simpl in Hl. apply negb_true_iff in Hl. subst m.
      rewrite (Hm eq_refl) in *. simpl in Ht. subst rest. reflexivity.
  - change (line_ok m (c :: x :: l))
      with (negb (c =? NL)%N && line_ok m (x :: l)) in Hl.
    apply andb_prop in Hl. destruct Hl as [Hc Hl].
    apply negb_true_iff in Hc.
    assert (Hu := IH m t rest Hl Ht Hm).
    change ((c :: x :: l) ++ t) with (c :: ((x :: l) ++ t)).
    set (u := (x :: l) ++ t) in *. clearbody u.
    simpl. rewrite Hc, Hu. reflexivity.
Qed.

Lemma readlines_join : forall ls,
  proper_lines ls = true -> readlines (join ls) = ls.
Proof.
  induction ls as [|l ls IH]; intro H; [reflexivity|].
  rewrite proper_lines_cons in H.
  apply andb_prop in H. destruct H as [Hl Hls].
  unfold join. simpl concat.
  eapply readlines_line; [exact Hl | apply IH; exact Hls |].
  destruct ls; [reflexivity | discriminate].
Qed.

Lemma rewritten_proper i o :
  rewritten i o -> proper_lines i = true -> proper_lines o = true.
Proof.
  induction 1 as [| l i o H IH | l i o H IH | l i o H IH]; intro Hp.
  - reflexivity.
  - rewrite proper_lines_cons in Hp.
    apply andb_prop in Hp. destruct Hp as [Hl Hi].
    rewrite proper_lines_cons, (IH Hi), andb_true_r.
    destruct o as [|x o].
    + destruct i; [exact Hl | apply line_ok_weaken; exact Hl].
    + destruct i as [|y i]; [inversion H | exact Hl].
  - rewrite proper_lines_cons in Hp.
    apply andb_prop in Hp. destruct Hp as [_ Hi]. auto.
  - rewrite proper_lines_cons in Hp.
    apply andb_prop in Hp. destruct Hp as [_ Hi].
    rewrite proper_lines_cons, (IH Hi), andb_true_r.
    destruct o; reflexivity.
Qed.

(** X7: the text that the script writes, read again line by line, gives
    the lines of [new_lines] as they are: the stub ends with a line
    feed, and a last line without line feed stays last. *)
Theorem X7_written_text_reads_back (t : text) (st : state) :
  scan (readlines t) = Ok st ->
  readlines (join (new_lines st)) = new_lines st.
Proof.
  intro Hscan. apply readlines_join.
  destruct (run_rewritten _ init st [] Hscan rewritten_nil)
    as (pre & Heq & Hpre).
  simpl in Heq.
  apply (rewritten_proper (readlines t)); [|apply readlines_proper].
  rewrite Heq. rewrite <- (app_nil_r (new_lines st)).
  apply rewritten_app; [assumption | apply rewritten_none].
Qed.

Lemma X7_written_text_reads_back_witness :
  readlines (join (new_lines More.unterminated_done))
  = new_lines More.unterminated_done.
Proof.
  apply (X7_written_text_reads_back More.unterminated).
  vm_compute. reflexivity.
Defined.

(** ** Well-formed modules, once more *)

Lemma cleared_lines fs :
  Spec.module_lines (map cleared fs) = Spec.rewrite fs.
Proof.
  unfold Spec.module_lines, Spec.rewrite.
  induction fs as [|f fs IH]; [reflexivity|].
  simpl. rewrite IH. f_equal.
  destruct f as [l | body]; [reflexivity|].
  simpl. destruct (Spec.has_float_reference body); reflexivity.
Qed.

Lemma cleared_well_formed fs :
  forallb Spec.well_formed fs = true ->
  forallb Spec.well_formed (map cleared fs) = true.
Proof.
  induction fs as [|f fs IH]; [reflexivity|].
  simpl. intro H. apply andb_prop in H. destruct H as [Hf Hfs].
  rewrite (IH Hfs), andb_true_r.
  destruct f as [l | body]; [exact Hf|].
  unfold cleared. destruct (Spec.has_float_reference body);
    [vm_compute; reflexivity | exact Hf].
Qed.

Lemma cleared_clean fs : Spec.clean (map cleared fs) = true.
Proof.
  induction fs as [|f fs IH]; [reflexivity|].
  simpl. rewrite IH, andb_true_r.
  destruct f as [l | body]; [reflexivity|].
  unfold cleared. destruct (Spec.has_float_reference body) eqn:E.
  - vm_compute. reflexivity.
  - rewrite E. reflexivity.
Qed.

(** X9: on the text of any well-formed module, with or without
    floating-point functions, the rewrite succeeds and rewriting its
    result again changes nothing: the stub line is itself a function of
    one line without marker. *)
Theorem X9_idempotent_on_well_formed_module
    (t : text) (fs : list Spec.form) :
  readlines t = Spec.module_lines fs ->
  forallb Spec.well_formed fs = true ->
  exists t',
    patch_text t = inl t'
    /\ t' = join (Spec.rewrite fs)
    /\ patch_text t' = inl t'.
Proof.
  intros Ht Hwf.
  destruct (scan_module fs Hwf) as (st & Hscan & Hnl & _).
  exists (join (Spec.rewrite fs)).
  assert (H1 : patch_text t = inl (join (Spec.rewrite fs))).
  { unfold patch_text. rewrite Ht, Hscan, Hnl. reflexivity. }
  split; [exact H1|]. split; [reflexivity|].
  assert (Hre : readlines (join (Spec.rewrite fs)) = Spec.rewrite fs).
  { rewrite <- Hnl. apply readlines_join.
    destruct (run_rewritten _ init st [] Hscan rewritten_nil)
      as (pre & Heq & Hpre).
    simpl in Heq.
    apply (rewritten_proper (readlines t)); [|apply readlines_proper].
    rewrite Ht, Heq. rewrite <- (app_nil_r (new_lines st)).
    apply rewritten_app; [assumption | apply rewritten_none]. }
  destruct (scan_module (map cleared fs) (cleared_well_formed fs Hwf))
    as (st2 & Hscan2 & Hnl2 & _).
  unfold patch_text. rewrite Hre, <- cleared_lines, Hscan2, Hnl2.
  rewrite (rewrite_clean _ (cleared_clean fs)). reflexivity.
Qed.

Lemma X9_idempotent_on_well_formed_module_witness :
  exists t',
    patch_text (join (Spec.module_lines Sample.forms)) = inl t'
    /\ t' = join (Spec.rewrite Sample.forms)
    /\ patch_text t' = inl t'.
Proof.
  apply (X9_idempotent_on_well_formed_module _ Sample.forms).
  - vm_compute. reflexivity.
  - vm_compute. reflexivity.
Defined.

(** A module made of well-formed forms, with what is printed. *)
Lemma run_module_printed : forall fs st,
  at_top st ->
  forallb Spec.well_formed fs = true ->
  exists st',
    run st (Spec.module_lines fs) = Ok st'
    /\ stdout st' = stdout st ++ diagnostics fs
    /\ at_top st'.
Proof.
  induction fs as [|f fs IH]; intros st Htop Hwf.
  - exists st. simpl. rewrite app_nil_r. auto.
  - simpl in Hwf. apply andb_prop in Hwf. destruct Hwf as [Hf Hfs].
    unfold Spec.module_lines, diagnostics. simpl flat_map.
    rewrite run_app.
    destruct f as [l | body].
    + simpl in Hf. apply negb_true_iff in Hf.
      destruct Htop as [Hin Hd].
      simpl Spec.lines_of.
      replace (run st [l])
        with (Ok (mkState (new_lines st ++ [l]) false (func_depth st)
                    (clear_func st) (func_lines st) (func_sig st)
                    (stdout st)))
        by (simpl; rewrite (step_plain _ _ Hin Hf); reflexivity).
      destruct (IH (mkState (new_lines st ++ [l]) false (func_depth st)
                      (clear_func st) (func_lines st) (func_sig st)
                      (stdout st))) as (st' & Hrun & Hout & Htop');
        [split; simpl; [reflexivity | assumption] | assumption |].
      exists st'. repeat split; try apply Htop'; assumption.
    + destruct body as [|l0 rest]; [discriminate|].
      simpl Spec.lines_of.
      rewrite (run_func _ _ _ Htop Hf).
      match goal with
      | |- context [run ?s (flat_map _ _)] =>
          destruct (IH s) as (st' & Hrun & Hout & Htop');
            [split; reflexivity | assumption |]
      end.
      exists st'. repeat split; try apply Htop'.
      * exact Hrun.
      * rewrite Hout. simpl stdout. simpl hd.
        rewrite <- app_assoc. reflexivity.
Qed.

(** X10: on a well-formed module the loop prints one line for each
    function with a floating-point marker, in the order of the module
    and nothing else: [clear func: ], a space, and the opening line of
    the function without the whitespace around it. *)
Theorem X10_one_diagnostic_per_cleared_function (fs : list Spec.form) :
  forallb Spec.well_formed fs = true ->
  exists st,
    scan (Spec.module_lines fs) = Ok st
    /\ stdout st = diagnostics fs
    /\ length (stdout st)
       = length (filter (fun f => match f with
                                  | Spec.Plain _ => false
                                  | Spec.Func body =>
                                      Spec.has_float_reference body
                                  end) fs).
Proof.
  intro Hwf.
  destruct (run_module_printed fs init at_top_init Hwf)
    as (st & Hrun & Hout & _).
  exists st. split; [exact Hrun|]. simpl in Hout. split; [exact Hout|].
  rewrite Hout. clear. unfold diagnostics.
  induction fs as [|f fs IH]; [reflexivity|].
  simpl. rewrite length_app, IH.
  destruct f as [l | body]; [reflexivity|].
  destruct (Spec.has_float_reference body); reflexivity.
Qed.

Lemma X10_one_diagnostic_per_cleared_function_witness :
  exists st,
    scan (Spec.module_lines Sample.forms) = Ok st
    /\ stdout st = diagnostics Sample.forms
    /\ length (stdout st)
       = length (filter (fun f => match f with
                                  | Spec.Plain _ => false
                                  | Spec.Func body =>
                                      Spec.has_float_reference body
                                  end) Sample.forms).
Proof.
  apply (X10_one_diagnostic_per_cleared_function Sample.forms).
  vm_compute. reflexivity.
Defined.

Lemma no_marker_lines body :
  Spec.has_float_reference body = false ->
  forallb (fun l => negb (float_marker l)) body = true.
Proof.
  unfold Spec.has_float_reference.
  induction body as [|l body IH]; [reflexivity|].
  simpl. intro H. apply orb_false_iff in H. destruct H as [-> H].
  simpl. apply IH. exact H.
Qed.

(** X11: when the floating-point markers of a well-formed module are all
    inside functions, no line of the output has a floating-point
    marker. *)
Theorem X11_output_without_marker (fs : list Spec.form) :
  forallb Spec.well_formed fs = true ->
  floats_in_functions fs = true ->
  exists st,
    scan (Spec.module_lines fs) = Ok st
    /\ forallb (fun l => negb (float_marker l)) (new_lines st) = true.
Proof.
  intros Hwf Hfl.
  destruct (scan_module fs Hwf) as (st & Hscan & Hnl & _).
  exists st. split; [exact Hscan|]. rewrite Hnl. clear - Hfl.
  unfold Spec.rewrite.
  induction fs as [|f fs IH]; [reflexivity|].
  simpl in Hfl. apply andb_prop in Hfl. destruct Hfl as [Hf Hfs].
  simpl. rewrite forallb_app, (IH Hfs), andb_true_r.
  destruct f as [l | body]; simpl.
  - rewrite Hf. reflexivity.
  - destruct (Spec.has_float_reference body) eqn:E.
    + vm_compute. reflexivity.
    + apply no_marker_lines. exact E.
Qed.

Lemma X11_output_without_marker_witness :
  exists st,
    scan (Spec.module_lines More.forms_float_inside) = Ok st
    /\ forallb (fun l => negb (float_marker l)) (new_lines st) = true.
Proof.
  apply (X11_output_without_marker More.forms_float_inside).
  - vm_compute. reflexivity.
  - vm_compute. reflexivity.
Defined.

(** ** Runs of the script *)

Lemma not_in_prints argv rc out : ~ In (EvRun argv rc) (map EvPrint out).
Proof.
  intro H. apply in_map_iff in H. destruct H as (s & Hs & _). discriminate.
Qed.

(** The cases of an event looked for in a run of the script. *)
Ltac event_cases Hin Hdec :=
  simpl in Hin; repeat rewrite in_app_iff in Hin; simpl in Hin;
  decompose [or] Hin; clear Hin;
  try match goal with
      | H : EvRun decoder_argv _ = EvRun encoder_argv _ |- _ =>
          destruct (Hdec _ H)
      | H : In _ (map EvPrint _) |- _ => destruct (not_in_prints _ _ _ H)
      | H : False |- _ => destruct H
      | H : EvRead _ _ = _ |- _ => discriminate H
      | H : EvWrite _ _ _ = _ |- _ => discriminate H
      end.

(** A run in which the encoder was started. *)
Lemma encoder_run_shape (w : world) (tr : trace) (r : unit + exn) rc :
  exec w main [] = (tr, r) ->
  In (EvRun encoder_argv rc) tr ->
  exists t st,
    scan (readlines t) = Ok st
    /\ tr = [EvRun decoder_argv 0; EvRead ORIGIN_WAT (Some t)]
            ++ map EvPrint (stdout st)
            ++ [EvWrite PATCHED_WAT (join (new_lines st)) true;
                EvRun encoder_argv rc]
    /\ r = if rc =? 0 then inl tt else inr AssertionError.
Proof.
  rewrite exec_main. cbv zeta.
  assert (Hdec : forall rc1, EvRun decoder_argv rc1 <> EvRun encoder_argv rc).
  { intros rc1 H. apply EvRun_inj in H. destruct (argv_differ (proj1 H)). }
  destruct (returncode w [] decoder_argv =? 0) eqn:E1.
  - apply Z.eqb_eq in E1. rewrite E1.
    destruct (content w _ ORIGIN_WAT) as [t|].
    + destruct (scan (readlines t)) as [st | e st] eqn:Hscan.
      * destruct (writable w _ PATCHED_WAT).
        -- intros H Hin. injection H as <- <-.
           exists t, st. split; [exact Hscan|].
           event_cases Hin Hdec.
           match goal with
           | H : EvRun encoder_argv _ = EvRun encoder_argv rc |- _ =>
               apply EvRun_inj in H; destruct H as [_ Hrc]
           end.
           rewrite Hrc. split; [|reflexivity].
           rewrite <- !app_assoc. reflexivity.
        -- intros H Hin. injection H as <- <-. event_cases Hin Hdec.
      * intros H Hin. injection H as <- <-. event_cases Hin Hdec.
    + intros H Hin. injection H as <- <-. event_cases Hin Hdec.
  - intros H Hin. injection H as <- <-. event_cases Hin Hdec.
Qed.

(** A run that ends without exception. *)
Lemma normal_end_shape (w : world) (tr : trace) (r : unit + exn) :
  exec w main [] = (tr, r) ->
  r = inl tt -> In (EvRun encoder_argv 0) tr.
Proof.
  rewrite exec_main. cbv zeta.
  destruct (returncode w [] decoder_argv =? 0).
  - destruct (content w _ ORIGIN_WAT) as [t|].
    + destruct (scan (readlines t)) as [st | e st].
      * destruct (writable w _ PATCHED_WAT).
        -- destruct (returncode w _ encoder_argv =? 0) eqn:E.
           ++ apply Z.eqb_eq in E. rewrite E.
              intros H _. injection H as <-.
              simpl. repeat rewrite in_app_iff. simpl. auto 10.
           ++ intros H Hr. injection H as _ <-. discriminate.
        -- intros H Hr. injection H as _ <-. discriminate.
      * intros H Hr. injection H as _ <-. discriminate.
    + intros H Hr. injection H as _ <-. discriminate.
  - intros H Hr. injection H as _ <-. discriminate.
Qed.

(** X12: in every run in which the encoder is started, the decoder has
    returned zero, the text of [pkg/origin.wat] was read and scanned
    without exception, one line was printed for each function cleared,
    and the rewritten text was written to [pkg/patched.wat], in this
    order and with nothing else; the run ends without exception when
    the encoder returns zero and with the failed assertion otherwise. *)
Theorem X12_encoder_runs_after_the_patched_text_is_written
    (w : world) (tr : trace) (r : unit + exn) (rc : Z) :
  exec w main [] = (tr, r) ->
  In (EvRun encoder_argv rc) tr ->
  exists t st,
    scan (readlines t) = Ok st
    /\ tr = [EvRun decoder_argv 0; EvRead ORIGIN_WAT (Some t)]
            ++ map EvPrint (stdout st)
            ++ [EvWrite PATCHED_WAT (join (new_lines st)) true;
                EvRun encoder_argv rc]
    /\ r = if rc =? 0 then inl tt else inr AssertionError.
Proof. exact (encoder_run_shape w tr r rc). Qed.

Lemma X12_encoder_runs_after_the_patched_text_is_written_witness :
  exists t st,
    scan (readlines t) = Ok st
    /\ Sample.encoder_fails_trace
       = [EvRun decoder_argv 0; EvRead ORIGIN_WAT (Some t)]
         ++ map EvPrint (stdout st)
         ++ [EvWrite PATCHED_WAT (join (new_lines st)) true;
             EvRun encoder_argv 1]
    /\ @inr unit exn AssertionError
       = if 1 =? 0 then inl tt else inr AssertionError.
Proof.
  apply (X12_encoder_runs_after_the_patched_text_is_written
           Sample.encoder_fails).
  - vm_compute. reflexivity.
  - vm_compute. auto 10.
Defined.

(** X13: a run of the script ends without exception exactly when the
    encoder was run and returned zero. *)
Theorem X13_normal_end_iff_encoder_succeeded
    (w : world) (tr : trace) (r : unit + exn) :
  exec w main [] = (tr, r) ->
  (r = inl tt <-> In (EvRun encoder_argv 0) tr).
Proof.
  intro Hexec. split.
  - apply (normal_end_shape w tr r Hexec).
  - intro Hin.
    destruct (encoder_run_shape w tr r 0 Hexec Hin) as (_ & _ & _ & _ & Hr).
    exact Hr.
Qed.

Lemma X13_normal_end_iff_encoder_succeeded_witness :
  @inl unit exn tt = inl tt <-> In (EvRun encoder_argv 0) More.success_trace.
Proof.
  apply (X13_normal_end_iff_encoder_succeeded More.all_succeeds).
  vm_compute. reflexivity.
Defined.
